(** * Seta: the enrollment / registration core

    A shallow embedding of [app/models/course.py] and
    [app/models/registration.py] together with the properties the
    specification states about them.

    Conventions of the embedding.
    - Python [int] is [Z]; [str] is [string] (ASCII); [bool] is [bool];
      [None]-able attributes are [option].
    - The fields of [Course], [Schedule] and [Registration] carry the types
      of their annotations.
    - [datetime.now().isoformat()] and [str(uuid.uuid4())] read the outside
      world: every operation that calls one of them takes the value read as
      an extra argument ([now], [uuid]).
    - A method that mutates [self] returns its result and the new [self].
    - A plain record ([Dict[str, Any]]) is a [gmap string pyval]; the
      registry dict, whose iteration order the code depends on, is an
      association list in insertion order.
    - Code that can raise returns a [res]: [Ok v] or [Raise e].
    - A [datetime] is an integer number of microseconds since 1970, within
      the range of the Python type.
    - A [float] is a value of an abstract type, and the one float
      expression of the code, [a / b * 100], a parameter. *)

From Stdlib Require Import ZArith Ascii String List Bool Lia.
From stdpp Require Import base option list gmap strings.

Set Warnings "-register-all".

Local Open Scope string_scope.
Local Open Scope Z_scope.

(** ** Plain records *)

Module Py.

(** The values a JSON-shaped record holds. *)
Inductive pyval : Type :=
| VNone
| VBool (b : bool)
| VInt (z : Z)
| VStr (s : string)
| VList (l : list pyval)
| VDict (d : gmap string pyval).

(** Truthiness, as [if v:] / [v or d] evaluate it. *)
Definition truthy (v : pyval) : bool :=
  match v with
  | VNone => false
  | VBool b => b
  | VInt z => negb (Z.eqb z 0)
  | VStr s => negb (String.eqb s "")
  | VList l => match l with [] => false | _ => true end
  | VDict d => negb (bool_decide (dom d = ∅))
  end.

(** [data.get(k, dflt)] *)
Definition get (data : gmap string pyval) (k : string) (dflt : pyval) : pyval :=
  default dflt (data !! k).

(** [data.get(k)] *)
Definition get_none (data : gmap string pyval) (k : string) : pyval :=
  get data k VNone.

(** [data[k]]: [None] stands for [KeyError]. *)
Definition item (data : gmap string pyval) (k : string) : option pyval :=
  data !! k.

(** Reading a value at the type an attribute is annotated with. *)
Definition as_str (v : pyval) : option string :=
  match v with VStr s => Some s | _ => None end.

Definition as_int (v : pyval) : option Z :=
  match v with VInt z => Some z | _ => None end.

Definition as_bool (v : pyval) : option bool :=
  match v with VBool b => Some b | _ => None end.

Definition as_str_list (v : pyval) : option (list string) :=
  match v with
  | VList l => mapM as_str l
  | _ => None
  end.

Definition of_str_list (l : list string) : pyval := VList (VStr <$> l).

(** An attribute that holds a string or [None]. *)
Definition as_opt_str (v : pyval) : option (option string) :=
  match v with
  | VNone => Some None
  | VStr s => Some (Some s)
  | _ => None
  end.

Definition of_opt_str (o : option string) : pyval :=
  match o with Some s => VStr s | None => VNone end.

End Py.

(** ** Outcomes of fallible code *)

Inductive exn : Type :=
| KeyError
| ValueError
| AttributeError
| OverflowError.

(** [Raise e]: the Python code raises [e]. [IllTyped]: a value read from a
    record is not of the type its attribute is annotated with; such inputs
    lie outside the typed embedding (the Python code stores them as they
    come). *)
Inductive res (A : Type) : Type :=
| Ok (a : A)
| Raise (e : exn)
| IllTyped.
Arguments Ok {A} a.
Arguments Raise {A} e.
Arguments IllTyped {A}.

#[global] Instance res_ret : MRet res := fun _ a => Ok a.
#[global] Instance res_bind : MBind res := fun _ _ f m =>
  match m with
  | Ok a => f a
  | Raise e => Raise e
  | IllTyped => IllTyped
  end.

Definition typed {A} (o : option A) : res A :=
  match o with Some a => Ok a | None => IllTyped end.

Definition or_raise {A} (e : exn) (o : option A) : res A :=
  match o with Some a => Ok a | None => Raise e end.

(** A [dict] keyed by strings, in insertion order. *)
Module Dict.

Abbreviation t V := (list (string * V)).

Definition keys {V} (d : t V) : list string := d.*1.

Definition values {V} (d : t V) : list V := d.*2.

(** [k in d] *)
Definition mem {V} (k : string) (d : t V) : bool :=
  bool_decide (k ∈ keys d).

(** [d.get(k)] *)
Fixpoint get {V} (k : string) (d : t V) : option V :=
  match d with
  | [] => None
  | (k', v) :: d' => if decide (k = k') then Some v else get k d'
  end.

(** [d[k] = v]: a key already present keeps its place. *)
Fixpoint set {V} (k : string) (v : V) (d : t V) : t V :=
  match d with
  | [] => [(k, v)]
  | (k', v') :: d' =>
      if decide (k = k') then (k, v) :: d' else (k', v') :: set k v d'
  end.

(** [del d[k]]; [KeyError] when [k] is absent. *)
Fixpoint del {V} (k : string) (d : t V) : res (t V) :=
  match d with
  | [] => Raise KeyError
  | (k', v') :: d' =>
      if decide (k = k') then Ok d'
      else d'' ← del k d'; mret ((k', v') :: d'')
  end.

End Dict.

(** [data[k]] on a plain record. *)
Definition getitem (data : gmap string Py.pyval) (k : string)
  : res Py.pyval :=
  or_raise KeyError (Py.item data k).

(** ** The [str] and [int] builtins the models call *)

Module PyStr.

(** [str.isspace] on ASCII: TAB..CR, FS..US and the space. *)
Definition is_space (c : ascii) : bool :=
  let n := nat_of_ascii c in
  ((9 <=? n) && (n <=? 13) || (28 <=? n) && (n <=? 32))%nat.

Fixpoint lstrip (s : string) : string :=
  match s with
  | String c r => if is_space c then lstrip r else s
  | EmptyString => EmptyString
  end.

(** [rstrip] keeps a character when it is not a space or when something is
    kept after it. *)
Fixpoint rstrip (s : string) : string :=
  match s with
  | String c r =>
      match rstrip r with
      | EmptyString => if is_space c then EmptyString else String c EmptyString
      | r' => String c r'
      end
  | EmptyString => EmptyString
  end.

(** [s.strip()] *)
Definition strip (s : string) : string := rstrip (lstrip s).

(** [s.split(sep)] for a one-character separator: the pieces between the
    separators, always at least one piece. *)
Fixpoint split (sep : ascii) (s : string) : list string :=
  match s with
  | EmptyString => [EmptyString]
  | String c r =>
      if Ascii.eqb c sep then EmptyString :: split sep r
      else match split sep r with
           | p :: ps => String c p :: ps
           | [] => [String c EmptyString]
           end
  end.

Definition digit_of (c : ascii) : option Z :=
  let n := nat_of_ascii c in
  if ((48 <=? n) && (n <=? 57))%nat then Some (Z.of_nat n - 48) else None.

(** The digits of a decimal literal: one or more digits, single
    underscores allowed between two digits. [after_digit] tells whether the
    previous character was a digit. *)
Fixpoint digits (after_digit : bool) (acc : Z) (s : string) : option Z :=
  match s with
  | EmptyString => if after_digit then Some acc else None
  | String c r =>
      match digit_of c with
      | Some d => digits true (10 * acc + d) r
      | None =>
          if Ascii.eqb c "_"%char && after_digit then digits false acc r
          else None
      end
  end.

(** The spaces [int] skips around a literal: those of C's [isspace], TAB
    to CR and the space. The four separators FS..US, which [str.strip]
    removes, are not among them. *)
Definition is_int_space (c : ascii) : bool :=
  let n := nat_of_ascii c in
  ((9 <=? n) && (n <=? 13) || (n =? 32))%nat.

Fixpoint int_lskip (s : string) : string :=
  match s with
  | String c r => if is_int_space c then int_lskip r else s
  | EmptyString => EmptyString
  end.

Fixpoint int_rskip (s : string) : string :=
  match s with
  | String c r =>
      match int_rskip r with
      | EmptyString =>
          if is_int_space c then EmptyString else String c EmptyString
      | r' => String c r'
      end
  | EmptyString => EmptyString
  end.

(** The number of digit characters of a literal. *)
Fixpoint count_digits (s : string) : Z :=
  match s with
  | EmptyString => 0
  | String c r =>
      match digit_of c with
      | Some _ => 1 + count_digits r
      | None => count_digits r
      end
  end.

(** [sys.get_int_max_str_digits()], at its default. *)
Definition int_max_str_digits : Z := 4300.

(** An unsigned decimal literal of at most [int_max_str_digits] digits. *)
Definition literal (s : string) : option Z :=
  if int_max_str_digits <? count_digits s then None else digits false 0 s.

(** [int(s)] in base 10: the spaces around the literal skipped, an optional
    sign, then the digits; [ValueError] otherwise. *)
Definition int (s : string) : res Z :=
  or_raise ValueError
    match int_rskip (int_lskip s) with
    | String "-" r => Z.opp <$> literal r
    | String "+" r => literal r
    | r => literal r
    end.

(** Unpacking an iterable into two names: [a, b = it]. *)
Definition unpack2 {A} (l : list A) : res (A * A) :=
  match l with
  | [a; b] => Ok (a, b)
  | _ => Raise ValueError
  end.

(** [s.lower()] on ASCII. *)
Definition lower_char (c : ascii) : ascii :=
  let n := nat_of_ascii c in
  if ((65 <=? n) && (n <=? 90))%nat then ascii_of_nat (n + 32) else c.

Fixpoint lower (s : string) : string :=
  match s with
  | EmptyString => EmptyString
  | String c r => String (lower_char c) (lower r)
  end.

End PyStr.

(** ** course.py *)

Module Schedule.

Record t : Type := mk {
  days : list string;
  time : string;
  room : string
}.

Definition to_dict (self : t) : gmap string Py.pyval :=
  {[ "days" := Py.of_str_list (days self);
     "time" := Py.VStr (time self);
     "room" := Py.VStr (room self) ]}.

Definition from_dict (data : gmap string Py.pyval) : res t :=
  d ← typed (Py.as_str_list (Py.get data "days" (Py.VList [])));
  t ← typed (Py.as_str (Py.get data "time" (Py.VStr "")));
  r ← typed (Py.as_str (Py.get data "room" (Py.VStr "")));
  mret (mk d t r).

End Schedule.

Module Course.

Record t : Type := mk {
  course_id : string;
  name : string;
  description : string;
  credits : Z;
  instructor : string;
  capacity : Z;
  enrolled : Z;
  prerequisites : list string;
  schedule : option Schedule.t;
  is_active : bool;
  created_at : string;
  updated_at : string
}.

Definition with_enrolled (n : Z) (now : string) (self : t) : t :=
  mk (course_id self) (name self) (description self) (credits self)
     (instructor self) (capacity self) n (prerequisites self)
     (schedule self) (is_active self) (created_at self) now.

(** [Course.__init__]; [now] is [datetime.now().isoformat()]. *)
Definition init (course_id name description : string) (credits : Z)
    (instructor : string) (capacity : Z)
    (prerequisites : option (list string)) (now : string) : t :=
  mk course_id name description credits instructor capacity 0
     (match prerequisites with
      | Some (p :: ps) => p :: ps
      | _ => []
      end)
     None true now now.

Definition set_schedule (days : list string) (time room : string)
    (now : string) (self : t) : t :=
  mk (course_id self) (name self) (description self) (credits self)
     (instructor self) (capacity self) (enrolled self) (prerequisites self)
     (Some (Schedule.mk days time room)) (is_active self)
     (created_at self) now.

Definition get_available_seats (self : t) : Z :=
  Z.max 0 (capacity self - enrolled self).

Definition is_full (self : t) : bool := capacity self <=? enrolled self.

Definition can_enroll (self : t) : bool :=
  is_active self && negb (is_full self).

(** The methods that mutate [self] return their result and the new
    [self]. *)
Definition enroll_student (now : string) (self : t) : bool * t :=
  if can_enroll self
  then (true, with_enrolled (enrolled self + 1) now self)
  else (false, self).

Definition drop_student (now : string) (self : t) : bool * t :=
  if 0 <? enrolled self
  then (true, with_enrolled (enrolled self - 1) now self)
  else (false, self).

(** The local [parse_time] of [_time_overlaps]. *)
Definition parse_time (time_str : string) : res (string * string) :=
  '(start, end_) ← PyStr.unpack2 (PyStr.split "-" time_str);
  mret (PyStr.strip start, PyStr.strip end_).

(** The local [time_to_minutes] of [_time_overlaps]. *)
Definition time_to_minutes (time_str : string) : res Z :=
  '(h, m) ← PyStr.unpack2 (PyStr.split ":" time_str);
  hours ← PyStr.int h;
  minutes ← PyStr.int m;
  mret (hours * 60 + minutes).

(** [_time_overlaps], on the schedule's own time string. *)
Definition _time_overlaps (self_time other_time : string) : res bool :=
  '(self_start, self_end) ← parse_time self_time;
  '(other_start, other_end) ← parse_time other_time;
  self_start_min ← time_to_minutes self_start;
  self_end_min ← time_to_minutes self_end;
  other_start_min ← time_to_minutes other_start;
  other_end_min ← time_to_minutes other_end;
  mret (negb ((self_end_min <=? other_start_min)
              || (other_end_min <=? self_start_min))).

Definition common_days (a b : Schedule.t) : gset string :=
  list_to_set (Schedule.days a) ∩ list_to_set (Schedule.days b).

Definition conflicts_with (self other_course : t) : res bool :=
  match schedule self, schedule other_course with
  | Some s, Some o =>
      if bool_decide (common_days s o = ∅) then Ok false
      else _time_overlaps (Schedule.time s) (Schedule.time o)
  | _, _ => Ok false
  end.

Definition to_dict (self : t) : gmap string Py.pyval :=
  {[ "course_id" := Py.VStr (course_id self);
     "name" := Py.VStr (name self);
     "description" := Py.VStr (description self);
     "credits" := Py.VInt (credits self);
     "instructor" := Py.VStr (instructor self);
     "capacity" := Py.VInt (capacity self);
     "enrolled" := Py.VInt (enrolled self);
     "prerequisites" := Py.of_str_list (prerequisites self);
     "schedule" := match schedule self with
                   | Some s => Py.VDict (Schedule.to_dict s)
                   | None => Py.VNone
                   end;
     "is_active" := Py.VBool (is_active self);
     "created_at" := Py.VStr (created_at self);
     "updated_at" := Py.VStr (updated_at self) ]}.

(** [data[k]] *)
Definition item (data : gmap string Py.pyval) (k : string) : res Py.pyval :=
  or_raise KeyError (Py.item data k).

(** [Course.from_dict]. [now_init] is the clock read by [__init__],
    [now_dflt] the one read for the default of [created_at]. *)
Definition from_dict (now_init now_dflt : string)
    (data : gmap string Py.pyval) : res t :=
  cid ← item data "course_id";
  nm ← item data "name";
  descr ← item data "description";
  cr ← item data "credits";
  ins ← item data "instructor";
  cid ← typed (Py.as_str cid);
  nm ← typed (Py.as_str nm);
  descr ← typed (Py.as_str descr);
  cr ← typed (Py.as_int cr);
  ins ← typed (Py.as_str ins);
  cap ← typed (Py.as_int (Py.get data "capacity" (Py.VInt 30)));
  pre ← typed (Py.as_str_list (Py.get data "prerequisites" (Py.VList [])));
  let course := init cid nm descr cr ins cap (Some pre) now_init in
  enr ← typed (Py.as_int (Py.get data "enrolled" (Py.VInt 0)));
  act ← typed (Py.as_bool (Py.get data "is_active" (Py.VBool true)));
  cre ← typed (Py.as_str (Py.get data "created_at" (Py.VStr now_dflt)));
  upd ← typed (Py.as_str (Py.get data "updated_at" (Py.VStr cre)));
  sch ← (if Py.truthy (Py.get_none data "schedule") then
           schedule_data ← item data "schedule";
           match schedule_data with
           | Py.VDict d => s ← Schedule.from_dict d; mret (Some s)
           | _ => Raise AttributeError
           end
         else Ok (schedule course));
  mret (mk (course_id course) (name course) (description course)
           (credits course) (instructor course) (capacity course)
           enr (prerequisites course) sch act cre upd).

Definition has_schedule (self : t) : bool :=
  match schedule self with Some _ => true | None => false end.

Definition has_prerequisites (self : t) : bool :=
  (0 <? length (prerequisites self))%nat.

Definition check_prerequisites (completed_courses : list string) (self : t)
  : bool :=
  if negb (has_prerequisites self) then true
  else forallb (λ prereq, bool_decide (prereq ∈ completed_courses))
               (prerequisites self).

End Course.

Module CourseManager.

(** The manager's only attribute, [self.courses]. *)
Abbreviation t := (Dict.t Course.t).

Definition add_course (course : Course.t) (self : t) : bool * t :=
  if negb (Dict.mem (Course.course_id course) self)
  then (true, Dict.set (Course.course_id course) course self)
  else (false, self).

Definition get_course (course_id : string) (self : t) : option Course.t :=
  Dict.get course_id self.

Definition get_all_courses (self : t) : list Course.t := Dict.values self.

Definition get_active_courses (self : t) : list Course.t :=
  filter (λ course, Course.is_active course) (Dict.values self).

(** [now] is [datetime.now().isoformat()]. *)
Definition delete_course (course_id : string) (now : string) (self : t)
  : bool * t :=
  match get_course course_id self with
  | Some course =>
      (true,
       Dict.set course_id
         (Course.mk (Course.course_id course) (Course.name course)
            (Course.description course) (Course.credits course)
            (Course.instructor course) (Course.capacity course)
            (Course.enrolled course) (Course.prerequisites course)
            (Course.schedule course) false (Course.created_at course) now)
         self)
  | None => (false, self)
  end.

Definition find_courses_by_instructor (instructor : string) (self : t)
  : list Course.t :=
  filter (λ course,
            PyStr.lower (Course.instructor course) = PyStr.lower instructor)
         (Dict.values self).

Definition find_courses_by_credits (min_credits : Z) (max_credits : option Z)
    (self : t) : list Course.t :=
  filter (λ course,
            (min_credits <=? Course.credits course)
            && match max_credits with
               | None => true
               | Some m => Course.credits course <=? m
               end)
         (Dict.values self).

(** An entry of the list [get_courses_with_conflicts] answers. *)
Record conflict : Type := mk_conflict {
  course1 : string;
  course2 : string;
  conflict_type : string
}.

(** The inner loop: [course1] against the courses after it. *)
Fixpoint conflicts_after (course1 : Course.t) (rest : list Course.t)
  : res (list conflict) :=
  match rest with
  | [] => Ok []
  | course2 :: rest' =>
      b ← Course.conflicts_with course1 course2;
      found ← conflicts_after course1 rest';
      mret (if b : bool
            then mk_conflict (Course.course_id course1)
                             (Course.course_id course2) "schedule" :: found
            else found)
  end.

(** The outer loop. *)
Fixpoint conflicts_among (student_course_objects : list Course.t)
  : res (list conflict) :=
  match student_course_objects with
  | [] => Ok []
  | course1 :: rest =>
      here ← conflicts_after course1 rest;
      later ← conflicts_among rest;
      mret (here ++ later)%list
  end.

Definition get_courses_with_conflicts (student_courses : list string)
    (self : t) : res (list conflict) :=
  conflicts_among (omap (λ cid, get_course cid self) student_courses).

End CourseManager.

(** ** registration.py *)

Inductive RegistrationStatus : Type :=
| ENROLLED
| DROPPED
| WAITLISTED
| PENDING.

#[global] Instance RegistrationStatus_eq_dec : EqDecision RegistrationStatus.
Proof. solve_decision. Defined.

Module Registration.

Record t : Type := mk {
  registration_id : string;
  student_id : string;
  course_id : string;
  status : RegistrationStatus;
  enrollment_date : string;
  drop_date : option string;
  grade : option string;
  notes : string
}.

(** [Registration.__init__]; [uuid] is [str(uuid.uuid4())], [now] is
    [datetime.now().isoformat()]. *)
Definition init (student_id course_id : string)
    (registration_id : option string) (uuid now : string) : t :=
  mk (match registration_id with
      | Some (String c r) => String c r
      | _ => uuid
      end)
     student_id course_id ENROLLED now None None "".

Definition with_status (st : RegistrationStatus) (dd : option string)
    (self : t) : t :=
  mk (registration_id self) (student_id self) (course_id self) st
     (enrollment_date self) dd (grade self) (notes self).

Definition drop_course (now : string) (self : t) : bool * t :=
  if decide (status self = ENROLLED)
  then (true, with_status DROPPED (Some now) self)
  else (false, self).

Definition re_enroll (self : t) : bool * t :=
  if decide (status self = DROPPED)
  then (true, with_status ENROLLED None self)
  else (false, self).

Definition set_grade (g : string) (self : t) : t :=
  mk (registration_id self) (student_id self) (course_id self) (status self)
     (enrollment_date self) (drop_date self) (Some g) (notes self).

Definition add_note (note : string) (self : t) : t :=
  mk (registration_id self) (student_id self) (course_id self) (status self)
     (enrollment_date self) (drop_date self) (grade self)
     (match notes self with
      | EmptyString => note
      | n => (n ++ "; " ++ note)%string
      end).

Definition is_active (self : t) : bool :=
  bool_decide (status self = ENROLLED).

Definition is_dropped (self : t) : bool :=
  bool_decide (status self = DROPPED).

(** [status.value] *)
Definition status_value (st : RegistrationStatus) : string :=
  match st with
  | ENROLLED => "enrolled"
  | DROPPED => "dropped"
  | WAITLISTED => "waitlisted"
  | PENDING => "pending"
  end.

(** [RegistrationStatus(v)]: the member whose value is [v], [ValueError]
    when there is none. *)
Definition status_of_value (v : Py.pyval) : res RegistrationStatus :=
  match v with
  | Py.VStr s =>
      if String.eqb s "enrolled" then Ok ENROLLED
      else if String.eqb s "dropped" then Ok DROPPED
      else if String.eqb s "waitlisted" then Ok WAITLISTED
      else if String.eqb s "pending" then Ok PENDING
      else Raise ValueError
  | _ => Raise ValueError
  end.

Definition to_dict (self : t) : gmap string Py.pyval :=
  {[ "registration_id" := Py.VStr (registration_id self);
     "student_id" := Py.VStr (student_id self);
     "course_id" := Py.VStr (course_id self);
     "status" := Py.VStr (status_value (status self));
     "enrollment_date" := Py.VStr (enrollment_date self);
     "drop_date" := Py.of_opt_str (drop_date self);
     "grade" := Py.of_opt_str (grade self);
     "notes" := Py.VStr (notes self) ]}.

(** [Registration.from_dict]. [uuid] and [now_init] are what [__init__]
    reads, [now_dflt] is the clock read for the default of
    [enrollment_date]. *)
Definition from_dict (uuid now_init now_dflt : string)
    (data : gmap string Py.pyval) : res t :=
  sid ← getitem data "student_id";
  cid ← getitem data "course_id";
  sid ← typed (Py.as_str sid);
  cid ← typed (Py.as_str cid);
  rid ← typed (Py.as_opt_str (Py.get_none data "registration_id"));
  let registration := init sid cid rid uuid now_init in
  st ← status_of_value (Py.get data "status" (Py.VStr "enrolled"));
  ed ← typed (Py.as_str (Py.get data "enrollment_date" (Py.VStr now_dflt)));
  dd ← typed (Py.as_opt_str (Py.get_none data "drop_date"));
  gr ← typed (Py.as_opt_str (Py.get_none data "grade"));
  nt ← typed (Py.as_str (Py.get data "notes" (Py.VStr "")));
  mret (mk (registration_id registration) (student_id registration)
           (course_id registration) st ed dd gr nt).

End Registration.

Module RegistrationManager.

(** The manager's only attribute, [self.registrations]. *)
Abbreviation t := (Dict.t Registration.t).

Definition get_registration (registration_id : string) (self : t)
  : option Registration.t :=
  Dict.get registration_id self.

(** The first registration of the pair, in the dict's order. The Python
    method returns a reference to the stored object; the model returns the
    entry, that is the key the object is stored under and the object, so
    that a caller that mutates the object writes through that key. *)
Fixpoint get_registration_by_student_and_course
    (student_id course_id : string) (self : t)
  : option (string * Registration.t) :=
  match self with
  | [] => None
  | (k, registration) :: rest =>
      if bool_decide (Registration.student_id registration = student_id)
         && bool_decide (Registration.course_id registration = course_id)
      then Some (k, registration)
      else get_registration_by_student_and_course student_id course_id rest
  end.

(** [uuid] and [now] are what [Registration.__init__] reads. *)
Definition create_registration (student_id course_id : string)
    (uuid now : string) (self : t) : option Registration.t * t :=
  let existing :=
    get_registration_by_student_and_course student_id course_id self in
  if match existing with
     | Some (_, e) => Registration.is_active e
     | None => false
     end
  then (None, self)
  else
    let registration :=
      Registration.init student_id course_id None uuid now in
    (Some registration,
     Dict.set (Registration.registration_id registration) registration self).

Definition get_student_registrations (student_id : string) (self : t)
  : list Registration.t :=
  filter (λ reg, Registration.student_id reg = student_id)
         (Dict.values self).

Definition get_course_registrations (course_id : string) (self : t)
  : list Registration.t :=
  filter (λ reg, Registration.course_id reg = course_id)
         (Dict.values self).

Definition drop_registration (student_id course_id : string) (now : string)
    (self : t) : bool * t :=
  match get_registration_by_student_and_course student_id course_id self with
  | Some (k, registration) =>
      if Registration.is_active registration then
        let '(b, registration') := Registration.drop_course now registration in
        (b, Dict.set k registration' self)
      else (false, self)
  | None => (false, self)
  end.

Definition update_registration_status (registration_id : string)
    (status : RegistrationStatus) (now : string) (self : t) : bool * t :=
  match get_registration registration_id self with
  | Some registration =>
      let dd := if decide (status = DROPPED) then Some now
                else Registration.drop_date registration in
      (true,
       Dict.set registration_id
                (Registration.with_status status dd registration) self)
  | None => (false, self)
  end.

Section Cleanup.

(** A [datetime] is its number of microseconds since 1970-01-01T00:00:00.
    [fromisoformat s] is [datetime.fromisoformat(s)] as the comparison with
    the naive [cutoff_date] uses it: the microseconds of the naive datetime
    that [s] denotes, [ValueError] for a string that denotes none. *)
Variable fromisoformat : string → res Z.

(** [timedelta(days=1)] *)
Definition day : Z := 86400000000.

(** [datetime.min], 0001-01-01T00:00:00, and [datetime.max],
    9999-12-31T23:59:59.999999. *)
Definition datetime_min : Z := -62135596800000000.
Definition datetime_max : Z := 253402300799999999.

Definition is_datetime (t : Z) : Prop := datetime_min ≤ t ≤ datetime_max.

(** [timedelta(days=d)]: [OverflowError] beyond 999999999 days. *)
Definition timedelta_days (d : Z) : res Z :=
  if Z.abs d <=? 999999999 then Ok (d * day) else Raise OverflowError.

(** [dt - td]: [OverflowError] when the result is no [datetime]. *)
Definition datetime_sub (dt td : Z) : res Z :=
  if (datetime_min <=? dt - td) && (dt - td <=? datetime_max)
  then Ok (dt - td)
  else Raise OverflowError.

(** The condition of the first loop. *)
Definition to_remove (cutoff_date : Z) (registration : Registration.t)
  : res bool :=
  if Registration.is_dropped registration then
    match Registration.drop_date registration with
    | Some (String c r) =>
        d ← fromisoformat (String c r); mret (d <? cutoff_date)
    | _ => Ok false
    end
  else Ok false.

(** The first loop: the ids of the registrations to remove. *)
Fixpoint collect (cutoff_date : Z) (regs : list Registration.t)
  : res (list string) :=
  match regs with
  | [] => Ok []
  | registration :: rest =>
      b ← to_remove cutoff_date registration;
      ids ← collect cutoff_date rest;
      mret (if b : bool then Registration.registration_id registration :: ids
            else ids)
  end.

(** The second loop. *)
Fixpoint remove_all (ids : list string) (removed_count : Z) (self : t)
  : res (Z * t) :=
  match ids with
  | [] => Ok (removed_count, self)
  | reg_id :: rest =>
      self' ← Dict.del reg_id self;
      remove_all rest (removed_count + 1) self'
  end.

(** [now] is [datetime.now()]. *)
Definition cleanup_old_registrations (days_old : Z) (now : Z) (self : t)
  : res (Z * t) :=
  delta ← timedelta_days days_old;
  cutoff_date ← datetime_sub now delta;
  registrations_to_remove ← collect cutoff_date (Dict.values self);
  remove_all registrations_to_remove 0 self.

End Cleanup.

Definition get_active_student_registrations (student_id : string)
    (self : t) : list Registration.t :=
  filter (λ reg, Registration.student_id reg = student_id
                 ∧ Registration.is_active reg)
         (Dict.values self).

Definition get_active_course_registrations (course_id : string)
    (self : t) : list Registration.t :=
  filter (λ reg, Registration.course_id reg = course_id
                 ∧ Registration.is_active reg)
         (Dict.values self).

(** An entry of the list [get_student_course_history] answers. *)
Record history_entry : Type := mk_history {
  h_course_id : string;
  h_status : string;
  h_enrollment_date : string;
  h_drop_date : option string;
  h_grade : option string;
  h_notes : string
}.

Definition get_student_course_history (student_id : string) (self : t)
  : list history_entry :=
  (λ registration,
     mk_history (Registration.course_id registration)
                (Registration.status_value (Registration.status registration))
                (Registration.enrollment_date registration)
                (Registration.drop_date registration)
                (Registration.grade registration)
                (Registration.notes registration))
  <$> get_student_registrations student_id self.

Section Rates.

(** The floats. [percent a b] is [a / b * 100] for [b] other than zero. *)
Variable F : Type.
Variable percent : Z → Z → F.

(** A rate is the float computed or the integer [0] of the guard. *)
Inductive rate : Type :=
| RInt (z : Z)
| RFloat (f : F).

Record statistics : Type := mk_statistics {
  total_registrations : Z;
  active_registrations : Z;
  dropped_registrations : Z;
  enrollment_rate : rate
}.

Definition get_registration_statistics (self : t) : statistics :=
  let total_registrations := Z.of_nat (length self) in
  let active_registrations :=
    Z.of_nat (length (filter (λ r, Registration.is_active r)
                             (Dict.values self))) in
  let dropped_registrations :=
    Z.of_nat (length (filter (λ r, Registration.is_dropped r)
                             (Dict.values self))) in
  mk_statistics total_registrations active_registrations
    dropped_registrations
    (if 0 <? total_registrations
     then RFloat (percent active_registrations total_registrations)
     else RInt 0).

Record summary : Type := mk_summary {
  s_course_id : string;
  total_enrollments : Z;
  active_enrollments : Z;
  dropped_enrollments : Z;
  retention_rate : rate
}.

Definition get_course_enrollment_summary (course_id : string) (self : t)
  : summary :=
  let course_registrations := get_course_registrations course_id self in
  let active_count :=
    Z.of_nat (length (filter (λ r, Registration.is_active r)
                             course_registrations)) in
  let dropped_count :=
    Z.of_nat (length (filter (λ r, Registration.is_dropped r)
                             course_registrations)) in
  mk_summary course_id
    (Z.of_nat (length course_registrations)) active_count dropped_count
    (match course_registrations with
     | [] => RInt 0
     | _ => RFloat (percent active_count
                            (Z.of_nat (length course_registrations)))
     end).

End Rates.

End RegistrationManager.

(** ** Sequences of calls *)

(** A call of one of the two counter methods of a course, with the clock it
    reads. *)
Inductive course_call : Type :=
| CallEnroll (now : string)
| CallDrop (now : string).

Definition run_course_call (self : Course.t) (c : course_call) : Course.t :=
  match c with
  | CallEnroll now => (Course.enroll_student now self).2
  | CallDrop now => (Course.drop_student now self).2
  end.

Definition run_course_calls (calls : list course_call) (self : Course.t)
  : Course.t :=
  foldl run_course_call self calls.

(** The minute interval a schedule's time string denotes, by the two local
    functions of [_time_overlaps]. *)
Definition minute_interval (time_str : string) : res (Z * Z) :=
  '(start, end_) ← Course.parse_time time_str;
  s ← Course.time_to_minutes start;
  e ← Course.time_to_minutes end_;
  mret (s, e).

Definition within_capacity (self : Course.t) : Prop :=
  0 ≤ Course.enrolled self ≤ Course.capacity self.

(** The registrations of a pair that are ENROLLED, in the dict's order. *)
Definition active_for_pair (student_id course_id : string)
    (self : RegistrationManager.t) : list Registration.t :=
  filter (λ reg, Registration.student_id reg = student_id
                 ∧ Registration.course_id reg = course_id
                 ∧ Registration.status reg = ENROLLED)
         (Dict.values self).

(** The operations a registration offers on itself. *)
Inductive registration_call : Type :=
| CallDropCourse (now : string)
| CallReEnroll
| CallSetGrade (grade : string)
| CallAddNote (note : string).

Definition run_registration_call (self : Registration.t)
    (c : registration_call) : Registration.t :=
  match c with
  | CallDropCourse now => (Registration.drop_course now self).2
  | CallReEnroll => (Registration.re_enroll self).2
  | CallSetGrade g => Registration.set_grade g self
  | CallAddNote n => Registration.add_note n self
  end.

(** [drop_date] is set only while the status is DROPPED. *)
Definition drop_date_only_when_dropped (self : Registration.t) : Prop :=
  Registration.drop_date self ≠ None → Registration.status self = DROPPED.

(** A dict as the manager builds it: no key twice, every registration
    stored under its own id. *)
Definition well_keyed (self : RegistrationManager.t) : Prop :=
  NoDup (Dict.keys self)
  ∧ ∀ k r, (k, r) ∈ self → k = Registration.registration_id r.

(** Every dropped registration that carries a drop date carries a
    timestamp. *)
Definition dated (fromisoformat : string → res Z)
    (self : RegistrationManager.t) : Prop :=
  ∀ k r d, (k, r) ∈ self →
    Registration.status r = DROPPED →
    Registration.drop_date r = Some d → d ≠ "" →
    ∃ t, fromisoformat d = Ok t.

(** A DROPPED registration whose [drop_date] is older than the cutoff. *)
Definition stale (fromisoformat : string → res Z) (cutoff : Z)
    (r : Registration.t) : bool :=
  match Registration.status r, Registration.drop_date r with
  | DROPPED, Some d =>
      match fromisoformat d with
      | Ok t => t <? cutoff
      | _ => false
      end
  | _, _ => false
  end.

(** A reading of the timestamps that [isoformat] writes,
    [YYYY-MM-DDTHH:MM:SS] with an optional [.ffffff], in microseconds since
    1970-01-01; it instantiates [fromisoformat] in the examples. *)
Module Iso.

Fixpoint decimal (acc : Z) (s : string) : option Z :=
  match s with
  | EmptyString => Some acc
  | String c r =>
      match PyStr.digit_of c with
      | Some d => decimal (10 * acc + d) r
      | None => None
      end
  end.

Definition field (start len : nat) (s : string) : option Z :=
  decimal 0 (substring start len s).

Definition is_leap (y : Z) : bool :=
  (y mod 4 =? 0) && (negb (y mod 100 =? 0) || (y mod 400 =? 0)).

Definition days_in_month (y m : Z) : Z :=
  if m =? 2 then (if is_leap y then 29 else 28)
  else if (m =? 4) || (m =? 6) || (m =? 9) || (m =? 11) then 30
  else 31.

(** Days from 1970-01-01 to the given civil date. *)
Definition days_from_civil (y m d : Z) : Z :=
  let y' := if m <=? 2 then y - 1 else y in
  let era := y' / 400 in
  let yoe := y' - era * 400 in
  let doy := (153 * (if 2 <? m then m - 3 else m + 9) + 2) / 5 + d - 1 in
  let doe := yoe * 365 + yoe / 4 - yoe / 100 + doy in
  era * 146097 + doe - 719468.

Definition fromisoformat (s : string) : res Z :=
  or_raise ValueError
    (y ← field 0 4 s;
     mo ← field 5 2 s;
     d ← field 8 2 s;
     h ← field 11 2 s;
     mi ← field 14 2 s;
     sec ← field 17 2 s;
     us ← (if (String.length s =? 19)%nat then Some 0
           else if (String.length s =? 26)%nat
                   && String.eqb (substring 19 1 s) "."
                then field 20 6 s
                else None);
     if String.eqb (substring 4 1 s) "-"
        && String.eqb (substring 7 1 s) "-"
        && String.eqb (substring 10 1 s) "T"
        && String.eqb (substring 13 1 s) ":"
        && String.eqb (substring 16 1 s) ":"
        && (1 <=? y) && (1 <=? mo) && (mo <=? 12)
        && (1 <=? d) && (d <=? days_in_month y mo)
        && (h <=? 23) && (mi <=? 59) && (sec <=? 59)
     then Some ((((days_from_civil y mo d * 24 + h) * 60 + mi) * 60 + sec)
                * 1000000 + us)
     else None).

End Iso.

(** A course dict as the manager builds it: no id twice, every course
    stored under its own id. *)
Definition courses_keyed (self : CourseManager.t) : Prop :=
  NoDup (Dict.keys self)
  ∧ ∀ k c, (k, c) ∈ self → k = Course.course_id c.

(** A call of one of the two methods that change the catalog. *)
Inductive catalog_call : Type :=
| CallAddCourse (course : Course.t)
| CallDeleteCourse (course_id now : string).

Definition run_catalog_call (self : CourseManager.t) (c : catalog_call)
  : CourseManager.t :=
  match c with
  | CallAddCourse course => (CourseManager.add_course course self).2
  | CallDeleteCourse course_id now =>
      (CourseManager.delete_course course_id now self).2
  end.

(** A call of one of the three methods that change the registry. *)
Inductive registry_call : Type :=
| CallCreate (student_id course_id uuid now : string)
| CallDropRegistration (student_id course_id now : string)
| CallUpdateStatus (registration_id : string) (status : RegistrationStatus)
                   (now : string).

Definition run_registry_call (self : RegistrationManager.t)
    (c : registry_call) : RegistrationManager.t :=
  match c with
  | CallCreate sid cid uuid now =>
      (RegistrationManager.create_registration sid cid uuid now self).2
  | CallDropRegistration sid cid now =>
      (RegistrationManager.drop_registration sid cid now self).2
  | CallUpdateStatus rid st now =>
      (RegistrationManager.update_registration_status rid st now self).2
  end.

Definition is_create (c : registry_call) : bool :=
  match c with CallCreate _ _ _ _ => true | _ => false end.

(** The pair a registration relates. *)
Definition pair_of (r : Registration.t) : string * string :=
  (Registration.student_id r, Registration.course_id r).

(** The time interval of a schedule as the specification has it: start and
    end are minutes of the day, written [HH:MM-HH:MM], 24-hour and
    zero-padded. These definitions follow the specification, not the
    code. *)
Module Spec.

Definition minute_of_day (m : Z) : Prop := 0 ≤ m < 1440.

Definition digit (d : Z) : ascii := ascii_of_nat (48 + Z.to_nat d).

Definition two_digits (n : Z) : string :=
  String (digit (n / 10)) (String (digit (n mod 10)) EmptyString).

(** [HH:MM] *)
Definition hhmm (m : Z) : string :=
  (two_digits (m / 60) ++ ":" ++ two_digits (m mod 60))%string.

(** [HH:MM-HH:MM] *)
Definition time (start end_ : Z) : string :=
  (hhmm start ++ "-" ++ hhmm end_)%string.

(** Half-open intervals [[s1,e1)] and [[s2,e2)] overlap. *)
Definition overlap (s1 e1 s2 e2 : Z) : Prop := s1 < e2 ∧ s2 < e1.

End Spec.

Fixpoint has_char (c : ascii) (s : string) : bool :=
  match s with
  | EmptyString => false
  | String x r => Ascii.eqb x c || has_char c r
  end.

(** What the code's reading of one [HH:MM] is checked for: no dash, nothing
    for [strip] to remove, and [time_to_minutes] giving back the minute. *)
Definition hhmm_checked (m : Z) : bool :=
  negb (has_char "-" (Spec.hhmm m))
  && String.eqb (PyStr.strip (Spec.hhmm m)) (Spec.hhmm m)
  && match Course.time_to_minutes (Spec.hhmm m) with
     | Ok v => v =? m
     | _ => false
     end.

(** * Properties of [Course] *)

Section CourseCounters.

Lemma enroll_student_within now self :
  within_capacity self → within_capacity (Course.enroll_student now self).2.
Proof.
  unfold within_capacity, Course.enroll_student, Course.can_enroll,
    Course.is_full.
  destruct (Course.is_active self); simpl; [|tauto].
  destruct (Z.leb_spec (Course.capacity self) (Course.enrolled self));
    simpl; lia.
Qed.

Lemma drop_student_within now self :
  within_capacity self → within_capacity (Course.drop_student now self).2.
Proof.
  unfold within_capacity, Course.drop_student.
  destruct (Z.ltb_spec 0 (Course.enrolled self)); simpl; lia.
Qed.

Lemma run_course_calls_within calls : ∀ self,
  within_capacity self → within_capacity (run_course_calls calls self).
Proof.
  induction calls as [|c calls IH]; intros self Hself; [exact Hself|].
  apply IH. destruct c; [apply enroll_student_within|apply drop_student_within];
    exact Hself.
Qed.

(** C2. A course constructed with a positive capacity keeps
    [0 <= enrolled <= capacity] through every sequence of [enroll_student]
    and [drop_student] calls. *)
Theorem C2_enrolled_within_capacity
    (course_id name description : string) (credits : Z) (instructor : string)
    (capacity : Z) (prerequisites : option (list string)) (now : string)
    (calls : list course_call) :
  0 < capacity →
  let course :=
    run_course_calls calls
      (Course.init course_id name description credits instructor capacity
                   prerequisites now) in
  0 ≤ Course.enrolled course ≤ Course.capacity course.
Proof.
  intros Hcap. apply run_course_calls_within.
  unfold within_capacity. simpl. lia.
Qed.

Lemma C2_enrolled_within_capacity_witness :
  let course :=
    run_course_calls [CallEnroll "t1"; CallEnroll "t2"; CallDrop "t3";
                      CallDrop "t4"; CallDrop "t5"; CallEnroll "t6"]
      (Course.init "CS101" "Intro" "" 3 "Ada" 1 None "t0") in
  0 ≤ Course.enrolled course ≤ Course.capacity course.
Proof.
  apply (C2_enrolled_within_capacity "CS101" "Intro" "" 3 "Ada" 1 None "t0").
  lia.
Defined.

(** C3. [enroll_student] answers [True] and adds exactly one to [enrolled]
    when the course is active and below capacity; when the course is full
    or inactive it answers [False] and the course is left as it was, in
    every field. *)
Theorem C3_enroll_student (now : string) (self : Course.t) :
  (Course.is_active self = true ∧ Course.enrolled self < Course.capacity self →
     (Course.enroll_student now self).1 = true
     ∧ Course.enrolled (Course.enroll_student now self).2
       = Course.enrolled self + 1)
  ∧ (Course.is_active self = false
     ∨ Course.capacity self ≤ Course.enrolled self →
     Course.enroll_student now self = (false, self)).
Proof.
  unfold Course.enroll_student, Course.can_enroll, Course.is_full.
  split.
  - intros [-> Hlt].
    destruct (Z.leb_spec (Course.capacity self) (Course.enrolled self));
      [lia|]. simpl. auto.
  - intros [-> | Hfull]; [reflexivity|].
    destruct (Z.leb_spec (Course.capacity self) (Course.enrolled self));
      [|lia]. rewrite andb_false_r. reflexivity.
Qed.

Lemma C3_enroll_student_witness :
  let open := Course.init "CS101" "Intro" "" 3 "Ada" 1 None "t0" in
  let full := (Course.enroll_student "t1" open).2 in
  ((Course.enroll_student "t1" open).1 = true
   ∧ Course.enrolled (Course.enroll_student "t1" open).2
     = Course.enrolled open + 1)
  ∧ Course.enroll_student "t2" full = (false, full).
Proof.
  split.
  - apply (C3_enroll_student "t1"). simpl. split; [reflexivity|lia].
  - apply (C3_enroll_student "t2"). right. simpl. lia.
Defined.

End CourseCounters.

Section CourseConflicts.

Lemma common_days_empty (a b : Schedule.t) :
  Course.common_days a b = ∅
  ↔ ¬ ∃ d, d ∈ Schedule.days a ∧ d ∈ Schedule.days b.
Proof.
  unfold Course.common_days. split.
  - intros Hempty (d & Ha & Hb).
    assert (d ∈ (∅ : gset string)) as Hd; [|set_solver].
    rewrite <- Hempty. set_solver.
  - intros Hnone. apply set_eq. intros d. split; [|set_solver].
    intros Hd. exfalso. apply Hnone. exists d. set_solver.
Qed.

Lemma time_overlaps_intervals a b s1 e1 s2 e2 :
  minute_interval a = Ok (s1, e1) →
  minute_interval b = Ok (s2, e2) →
  Course._time_overlaps a b = Ok (bool_decide (s1 < e2 ∧ s2 < e1)).
Proof.
  unfold minute_interval, Course._time_overlaps.
  destruct (Course.parse_time a) as [[a1 a2]| |]; simpl; [|discriminate..].
  destruct (Course.parse_time b) as [[b1 b2]| |]; simpl; [|discriminate..].
  destruct (Course.time_to_minutes a1) as [x1| |]; simpl; [|discriminate..].
  destruct (Course.time_to_minutes a2) as [y1| |]; simpl; [|discriminate..].
  destruct (Course.time_to_minutes b1) as [x2| |]; simpl; [|discriminate..].
  destruct (Course.time_to_minutes b2) as [y2| |]; simpl; [|discriminate..].
  intros [= -> ->] [= -> ->]. f_equal.
  destruct (Z.leb_spec e1 s2), (Z.leb_spec e2 s1); simpl;
    symmetry; first [apply bool_decide_eq_true; lia
                    |apply bool_decide_eq_false; lia].
Qed.

Lemma hhmm_all_checked : forallb hhmm_checked (seqZ 0 1440) = true.
Proof. vm_compute. reflexivity. Qed.

Lemma hhmm_read (m : Z) :
  Spec.minute_of_day m →
  has_char "-" (Spec.hhmm m) = false
  ∧ PyStr.strip (Spec.hhmm m) = Spec.hhmm m
  ∧ Course.time_to_minutes (Spec.hhmm m) = Ok m.
Proof.
  intros Hm.
  assert (hhmm_checked m = true) as Hchecked.
  { apply (proj1 (forallb_forall hhmm_checked (seqZ 0 1440)) hhmm_all_checked).
    apply list_elem_of_In, elem_of_seqZ. unfold Spec.minute_of_day in Hm.
    lia. }
  unfold hhmm_checked in Hchecked.
  apply andb_true_iff in Hchecked as [Hchecked Hminutes].
  apply andb_true_iff in Hchecked as [Hdash Hstrip].
  apply negb_true_iff in Hdash. apply String.eqb_eq in Hstrip.
  repeat split; [exact Hdash|exact Hstrip|].
  destruct (Course.time_to_minutes (Spec.hhmm m)) as [v| |];
    [|discriminate..].
  apply Z.eqb_eq in Hminutes. congruence.
Qed.

Lemma split_no_sep (sep : ascii) (b : string) :
  has_char sep b = false → PyStr.split sep b = [b].
Proof.
  induction b as [|x b IH]; [reflexivity|].
  cbn [has_char PyStr.split]. intros H. apply orb_false_iff in H as [Hx Hb].
  rewrite Hx, (IH Hb). reflexivity.
Qed.

Lemma split_app (sep : ascii) (a b : string) :
  has_char sep a = false →
  PyStr.split sep (a ++ String sep b) = a :: PyStr.split sep b.
Proof.
  induction a as [|x a IH]; intros H.
  - change (EmptyString ++ String sep b)%string with (String sep b).
    cbn [PyStr.split]. rewrite Ascii.eqb_refl. reflexivity.
  - cbn [has_char] in H. apply orb_false_iff in H as [Hx Ha].
    change (String x a ++ String sep b)%string
      with (String x (a ++ String sep b)).
    cbn [PyStr.split]. rewrite Hx, (IH Ha). reflexivity.
Qed.

(** The code reads the wire form of an interval as the minutes it
    denotes. *)
Lemma minute_interval_wire (start end_ : Z) :
  Spec.minute_of_day start → Spec.minute_of_day end_ →
  minute_interval (Spec.time start end_) = Ok (start, end_).
Proof.
  intros Hs He.
  destruct (hhmm_read start Hs) as (Hdash_s & Hstrip_s & Hmin_s).
  destruct (hhmm_read end_ He) as (Hdash_e & Hstrip_e & Hmin_e).
  unfold minute_interval, Course.parse_time, Spec.time.
  change ("-" ++ Spec.hhmm end_)%string with (String "-" (Spec.hhmm end_)).
  rewrite (split_app _ _ _ Hdash_s), (split_no_sep _ _ Hdash_e).
  cbn [PyStr.unpack2 mbind res_bind mret res_ret].
  rewrite Hstrip_s, Hstrip_e, Hmin_s. cbn [mbind res_bind].
  rewrite Hmin_e. reflexivity.
Qed.

(** C4. For two courses whose schedules share a day and carry the
    intervals [[s1,e1)] and [[s2,e2)] of minutes of the day, written
    [HH:MM-HH:MM], [conflicts_with] answers [True] exactly when [s1 < e2]
    and [s2 < e1], and [False] otherwise; touching intervals ([e1 = s2]) do
    not conflict; the answer is [False] when a course has no schedule or
    the schedules share no day. The room plays no part. *)
Theorem C4_conflicts_with (self other : Course.t) :
  (∀ s o s1 e1 s2 e2,
     Course.schedule self = Some s →
     Course.schedule other = Some o →
     (∃ d, d ∈ Schedule.days s ∧ d ∈ Schedule.days o) →
     Spec.minute_of_day s1 → Spec.minute_of_day e1 →
     Spec.minute_of_day s2 → Spec.minute_of_day e2 →
     Schedule.time s = Spec.time s1 e1 →
     Schedule.time o = Spec.time s2 e2 →
     (Course.conflicts_with self other = Ok true ↔ Spec.overlap s1 e1 s2 e2)
     ∧ (Course.conflicts_with self other = Ok false
        ↔ ¬ Spec.overlap s1 e1 s2 e2)
     ∧ (e1 = s2 → Course.conflicts_with self other = Ok false))
  ∧ (Course.schedule self = None ∨ Course.schedule other = None →
     Course.conflicts_with self other = Ok false)
  ∧ (∀ s o,
       Course.schedule self = Some s →
       Course.schedule other = Some o →
       (¬ ∃ d, d ∈ Schedule.days s ∧ d ∈ Schedule.days o) →
       Course.conflicts_with self other = Ok false).
Proof.
  unfold Course.conflicts_with, Spec.overlap. split; [|split].
  - intros s o s1 e1 s2 e2 -> -> Hdays Hs1 He1 Hs2 He2 Hs Ho.
    rewrite bool_decide_eq_false_2
      by (rewrite common_days_empty; tauto).
    rewrite Hs, Ho.
    rewrite (time_overlaps_intervals _ _ _ _ _ _
               (minute_interval_wire s1 e1 Hs1 He1)
               (minute_interval_wire s2 e2 Hs2 He2)).
    destruct (decide (s1 < e2 ∧ s2 < e1)) as [Hov|Hov].
    + rewrite (bool_decide_eq_true_2 _ Hov).
      repeat split; try tauto; try discriminate. lia.
    + rewrite (bool_decide_eq_false_2 _ Hov).
      repeat split; try tauto; try discriminate.
  - intros [-> | ->]; [reflexivity|].
    destruct (Course.schedule self); reflexivity.
  - intros s o -> -> Hdays.
    rewrite bool_decide_eq_true_2 by (rewrite common_days_empty; exact Hdays).
    reflexivity.
Qed.

Lemma C4_conflicts_with_witness :
  let course d t r :=
    Course.set_schedule d t r "t1"
      (Course.init "C" "Course" "" 3 "Ada" 30 None "t0") in
  let a := course ["Monday"] "10:00-11:30" "R1" in
  let b := course ["Monday"; "Wednesday"] "11:30-13:00" "R2" in
  let c := course ["Monday"] "11:00-12:00" "R3" in
  Course.conflicts_with a b = Ok false
  ∧ Course.conflicts_with a c = Ok true.
Proof.
  intros course a b c. split.
  - destruct (C4_conflicts_with a b) as [Hshared _].
    apply (Hshared (Schedule.mk ["Monday"] "10:00-11:30" "R1")
                   (Schedule.mk ["Monday"; "Wednesday"] "11:30-13:00" "R2")
                   600 690 690 780);
      try reflexivity; try (unfold Spec.minute_of_day; lia).
    exists "Monday". split; apply list_elem_of_here.
  - destruct (C4_conflicts_with a c) as [Hshared _].
    apply (Hshared (Schedule.mk ["Monday"] "10:00-11:30" "R1")
                   (Schedule.mk ["Monday"] "11:00-12:00" "R3")
                   600 690 660 720);
      try reflexivity; try (unfold Spec.minute_of_day; lia).
    + exists "Monday". split; apply list_elem_of_here.
    + unfold Spec.overlap. lia.
Defined.

End CourseConflicts.

Section CourseRecords.

Lemma mapM_as_str (l : list string) :
  mapM Py.as_str (Py.VStr <$> l) = Some l.
Proof.
  induction l as [|x l IH]; [reflexivity|].
  rewrite fmap_cons. cbn [mapM]. cbn [Py.as_str mbind option_bind].
  rewrite IH. reflexivity.
Qed.

Lemma schedule_to_dict_nonempty (s : Schedule.t) :
  Py.truthy (Py.VDict (Schedule.to_dict s)) = true.
Proof.
  unfold Py.truthy, Schedule.to_dict.
  rewrite bool_decide_eq_false_2; [reflexivity|].
  rewrite !dom_insert_L. set_solver.
Qed.

Lemma Schedule_from_dict_to_dict (s : Schedule.t) :
  Schedule.from_dict (Schedule.to_dict s) = Ok s.
Proof.
  destruct s as [d t r].
  unfold Schedule.from_dict, Schedule.to_dict, Py.get.
  simplify_map_eq. rewrite mapM_as_str. reflexivity.
Qed.

(** C10. Reading back the record that [to_dict] writes gives the course
    again, field by field: [Course.from_dict (c.to_dict ()) = c]. *)
Theorem C10_from_dict_to_dict (now_init now_dflt : string) (c : Course.t) :
  Course.from_dict now_init now_dflt (Course.to_dict c) = Ok c.
Proof.
  destruct c as [cid nm descr cr ins cap enr pre sch act cre upd].
  unfold Course.from_dict, Course.item, Py.item, Py.get_none, Py.get,
    Course.to_dict.
  cbn [Course.course_id Course.name Course.description Course.credits
       Course.instructor Course.capacity Course.enrolled Course.prerequisites
       Course.schedule Course.is_active Course.created_at Course.updated_at].
  simplify_map_eq.
  rewrite mapM_as_str. cbn [typed mbind res_bind].
  cbn [Course.course_id Course.name Course.description Course.credits
       Course.instructor Course.capacity Course.enrolled Course.schedule].
  assert (match pre with [] => [] | p :: ps => p :: ps end = pre) as ->
    by (destruct pre; reflexivity).
  destruct sch as [s|].
  - rewrite schedule_to_dict_nonempty. cbn [or_raise mbind res_bind].
    rewrite Schedule_from_dict_to_dict. reflexivity.
  - reflexivity.
Qed.

End CourseRecords.

Section CourseValidation.

Lemma parse_time_outcome (time_str : string) :
  (∃ p, Course.parse_time time_str = Ok p)
  ∨ Course.parse_time time_str = Raise ValueError.
Proof.
  unfold Course.parse_time, PyStr.unpack2.
  destruct (PyStr.split "-" time_str) as [|a [|b [|c l]]]; simpl; eauto.
Qed.

Lemma int_outcome (s : string) :
  (∃ n, PyStr.int s = Ok n) ∨ PyStr.int s = Raise ValueError.
Proof.
  unfold PyStr.int.
  match goal with |- context [or_raise _ ?o] => destruct o end; simpl; eauto.
Qed.

Lemma time_to_minutes_outcome (time_str : string) :
  (∃ n, Course.time_to_minutes time_str = Ok n)
  ∨ Course.time_to_minutes time_str = Raise ValueError.
Proof.
  unfold Course.time_to_minutes, PyStr.unpack2.
  destruct (PyStr.split ":" time_str) as [|a [|b [|c l]]]; simpl; eauto.
  destruct (int_outcome a) as [[h ->] | ->]; simpl; eauto.
  destruct (int_outcome b) as [[m ->] | ->]; simpl; eauto.
Qed.

(** C9, as the code has it. Construction rejects nothing: [__init__] stores
    the credits and the capacity it is given, negative ones included,
    [set_schedule] and [Schedule.from_dict] store the time string they are
    given, whatever it is, and [Schedule.from_dict] reads a missing [time]
    as the empty string. *)
Theorem C9_no_validation_at_construction :
  (∀ course_id name description credits instructor capacity prerequisites now,
     let c := Course.init course_id name description credits instructor
                          capacity prerequisites now in
     Course.credits c = credits ∧ Course.capacity c = capacity)
  ∧ (∀ days time room now self,
       Course.schedule (Course.set_schedule days time room now self)
       = Some (Schedule.mk days time room))
  ∧ (∀ days time room,
       Schedule.from_dict
         {[ "days" := Py.of_str_list days; "time" := Py.VStr time;
            "room" := Py.VStr room ]}
       = Ok (Schedule.mk days time room))
  ∧ (∀ days room,
       Schedule.from_dict
         {[ "days" := Py.of_str_list days; "room" := Py.VStr room ]}
       = Ok (Schedule.mk days "" room)).
Proof.
  repeat split.
  - intros days time room.
    apply (Schedule_from_dict_to_dict (Schedule.mk days time room)).
  - intros days room. unfold Schedule.from_dict, Py.get.
    simplify_map_eq. rewrite mapM_as_str. reflexivity.
Qed.

(** C9, as the specification states it, fails: a course with negative
    credits and capacity is constructed, and schedules with a time string
    that denotes no interval, or with none at all, are constructed. *)
Lemma C9_malformed_input_accepted :
  let c := Course.init "CS101" "Intro" "" (-3) "Ada" (-5) None "t0" in
  Course.credits c = -3
  ∧ Course.capacity c = -5
  ∧ Course.schedule (Course.set_schedule ["Monday"] "noon" "R1" "t1" c)
    = Some (Schedule.mk ["Monday"] "noon" "R1")
  ∧ Schedule.from_dict
      {[ "days" := Py.VList [Py.VStr "Monday"]; "time" := Py.VStr "noon";
         "room" := Py.VStr "R1" ]}
    = Ok (Schedule.mk ["Monday"] "noon" "R1")
  ∧ minute_interval "noon" = Raise ValueError
  ∧ Schedule.from_dict
      {[ "days" := Py.VList [Py.VStr "Monday"]; "room" := Py.VStr "R1" ]}
    = Ok (Schedule.mk ["Monday"] "" "R1")
  ∧ minute_interval "" = Raise ValueError.
Proof. vm_compute. repeat split; reflexivity. Qed.

End CourseValidation.

(** * Properties of [Registration] *)

Section RegistrationLifecycle.

(** C7. [drop_course] succeeds exactly from ENROLLED, and then the status is
    DROPPED and [drop_date] is the clock read; [re_enroll] succeeds exactly
    from DROPPED, and then the status is ENROLLED and [drop_date] is
    cleared; from every other status each answers [False] and changes
    nothing. After a successful drop, [re_enroll] gives an ENROLLED
    registration with no [drop_date]. *)
Theorem C7_drop_course_re_enroll (now : string) (self : Registration.t) :
  ((Registration.drop_course now self).1 = true
   ↔ Registration.status self = ENROLLED)
  ∧ (Registration.status self = ENROLLED →
     Registration.status (Registration.drop_course now self).2 = DROPPED
     ∧ Registration.drop_date (Registration.drop_course now self).2
       = Some now)
  ∧ (Registration.status self ≠ ENROLLED →
     Registration.drop_course now self = (false, self))
  ∧ ((Registration.re_enroll self).1 = true
     ↔ Registration.status self = DROPPED)
  ∧ (Registration.status self = DROPPED →
     Registration.status (Registration.re_enroll self).2 = ENROLLED
     ∧ Registration.drop_date (Registration.re_enroll self).2 = None)
  ∧ (Registration.status self ≠ DROPPED →
     Registration.re_enroll self = (false, self))
  ∧ (Registration.status self = ENROLLED →
     let dropped := (Registration.drop_course now self).2 in
     (Registration.re_enroll dropped).1 = true
     ∧ Registration.status (Registration.re_enroll dropped).2 = ENROLLED
     ∧ Registration.drop_date (Registration.re_enroll dropped).2 = None).
Proof.
  unfold Registration.drop_course, Registration.re_enroll.
  destruct self as [rid sid cid st ed dd gr nt]; simpl.
  destruct st; simpl; repeat split; intros; try congruence; auto.
Qed.

Lemma C7_drop_course_re_enroll_witness :
  let r := Registration.init "s1" "CS101" None "r1" "t0" in
  let dropped := (Registration.drop_course "t1" r).2 in
  (Registration.re_enroll dropped).1 = true
  ∧ Registration.status (Registration.re_enroll dropped).2 = ENROLLED
  ∧ Registration.drop_date (Registration.re_enroll dropped).2 = None.
Proof.
  intros r dropped.
  apply (C7_drop_course_re_enroll "t1" r). reflexivity.
Defined.

(** The operations of a registration on itself keep [drop_date] unset
    outside DROPPED. *)
Lemma registration_call_drop_date self c :
  drop_date_only_when_dropped self →
  drop_date_only_when_dropped (run_registration_call self c).
Proof.
  unfold drop_date_only_when_dropped.
  destruct self as [rid sid cid st ed dd gr nt].
  destruct c; simpl; unfold Registration.drop_course, Registration.re_enroll;
    simpl; try tauto.
  - destruct st; simpl; auto.
  - destruct st; simpl; auto. congruence.
Qed.

(** C6. The registry's status update breaks the rule that [drop_date] is set
    only while the status is DROPPED: a registration that was dropped and is
    then set back to ENROLLED by [update_registration_status] keeps its
    [drop_date]. *)
Theorem C6_status_update_keeps_drop_date :
  let m1 := (RegistrationManager.create_registration
               "s1" "CS101" "r1" "t0" []).2 in
  let m2 := (RegistrationManager.drop_registration "s1" "CS101" "t1" m1).2 in
  let m3 := (RegistrationManager.update_registration_status
               "r1" ENROLLED "t2" m2).2 in
  RegistrationManager.get_registration "r1" m3
  = Some (Registration.mk "r1" "s1" "CS101" ENROLLED "t0" (Some "t1") None "").
Proof. vm_compute. reflexivity. Qed.

End RegistrationLifecycle.

(** * Properties of [RegistrationManager] *)

Section RegistrationRegistry.

(** The dict stays as the manager builds it. *)
Lemma set_keys (k : string) (v : Registration.t) (d : RegistrationManager.t) :
  Dict.keys (Dict.set k v d)
  = if decide (k ∈ Dict.keys d) then Dict.keys d
    else (Dict.keys d ++ [k])%list.
Proof.
  unfold Dict.keys. induction d as [|[k' v'] d IH]; [reflexivity|].
  cbn [Dict.set]. rewrite fmap_cons. cbn [fst].
  destruct (decide (k = k')) as [->|Hne].
  - rewrite decide_True by left. reflexivity.
  - rewrite fmap_cons, IH. cbn [fst].
    destruct (decide (k ∈ d.*1)) as [Hin|Hin].
    + rewrite decide_True by (right; exact Hin). reflexivity.
    + rewrite decide_False; [reflexivity|].
      rewrite elem_of_cons. tauto.
Qed.

Lemma set_elem (k : string) (v : Registration.t) (d : RegistrationManager.t)
    (e : string * Registration.t) :
  e ∈ Dict.set k v d → e = (k, v) ∨ e ∈ d.
Proof.
  induction d as [|[k' v'] d IH]; cbn [Dict.set].
  - intros He. apply elem_of_cons in He as [He|He]; [left; exact He|].
    inversion He.
  - destruct (decide (k = k')); intros He;
      apply elem_of_cons in He as [He|He].
    + left. exact He.
    + right. right. exact He.
    + right. subst e. left.
    + destruct (IH He) as [?|?]; [left|right; right]; assumption.
Qed.

Lemma set_well_keyed (k : string) (v : Registration.t)
    (self : RegistrationManager.t) :
  well_keyed self → k = Registration.registration_id v →
  well_keyed (Dict.set k v self).
Proof.
  intros [Hnd Hkeyed] Hk. split.
  - rewrite set_keys. destruct (decide (k ∈ Dict.keys self)); [exact Hnd|].
    apply NoDup_app. repeat split; [exact Hnd| |apply NoDup_singleton].
    intros x Hx Hx'. apply list_elem_of_singleton in Hx'. congruence.
  - intros k' r Hin. apply set_elem in Hin as [[= -> ->]|Hin];
      [exact Hk|apply Hkeyed; exact Hin].
Qed.

Lemma first_of_pair_elem sid cid (self : RegistrationManager.t) k r :
  RegistrationManager.get_registration_by_student_and_course sid cid self
  = Some (k, r) →
  (k, r) ∈ self.
Proof.
  induction self as [|[k' r'] self IH];
    cbn [RegistrationManager.get_registration_by_student_and_course];
    [discriminate|].
  destruct (_ && _).
  - intros [= -> ->]. left.
  - intros H. right. exact (IH H).
Qed.

Lemma get_elem (k : string) (self : RegistrationManager.t) r :
  Dict.get k self = Some r → (k, r) ∈ self.
Proof.
  induction self as [|[k' r'] self IH]; cbn [Dict.get]; [discriminate|].
  destruct (decide (k = k')) as [->|Hne].
  - intros [= ->]. left.
  - intros H. right. exact (IH H).
Qed.

Lemma create_registration_well_keyed sid cid uuid now self :
  well_keyed self →
  well_keyed (RegistrationManager.create_registration sid cid uuid now self).2.
Proof.
  intros Hwk. unfold RegistrationManager.create_registration.
  destruct (match _ with Some _ => _ | None => _ end); [exact Hwk|].
  apply set_well_keyed; auto.
Qed.

Lemma drop_registration_well_keyed sid cid now self :
  well_keyed self →
  well_keyed (RegistrationManager.drop_registration sid cid now self).2.
Proof.
  intros Hwk. unfold RegistrationManager.drop_registration.
  destruct (RegistrationManager.get_registration_by_student_and_course
              sid cid self) as [[k e]|] eqn:Hfirst; [|exact Hwk].
  destruct (Registration.is_active e); [|exact Hwk].
  apply first_of_pair_elem in Hfirst. destruct Hwk as [Hnd Hkeyed].
  pose proof (Hkeyed k e Hfirst) as Hk.
  unfold Registration.drop_course.
  destruct (decide (Registration.status e = ENROLLED));
    apply set_well_keyed; try (split; assumption); exact Hk.
Qed.

Lemma update_registration_status_well_keyed rid st now self :
  well_keyed self →
  well_keyed
    (RegistrationManager.update_registration_status rid st now self).2.
Proof.
  intros Hwk. unfold RegistrationManager.update_registration_status,
    RegistrationManager.get_registration.
  destruct (Dict.get rid self) as [r|] eqn:Hget; [|exact Hwk].
  apply get_elem in Hget. apply set_well_keyed; [exact Hwk|].
  destruct Hwk as [_ Hkeyed]. exact (Hkeyed rid r Hget).
Qed.

(** [create_registration] looks at the first registration of the pair
    only. *)
Lemma create_registration_first_active sid cid uuid now self k e :
  RegistrationManager.get_registration_by_student_and_course sid cid self
  = Some (k, e) →
  Registration.status e = ENROLLED →
  RegistrationManager.create_registration sid cid uuid now self
  = (None, self).
Proof.
  intros Hfirst Hst. unfold RegistrationManager.create_registration.
  rewrite Hfirst. unfold Registration.is_active.
  rewrite bool_decide_eq_true_2 by exact Hst. reflexivity.
Qed.

(** C1. After create, drop, create, a further [create_registration] for the
    same pair finds the dropped first record, answers a new registration and
    stores it: the pair then has two ENROLLED registrations. *)
Theorem C1_second_active_registration :
  let m1 := (RegistrationManager.create_registration
               "s1" "CS101" "r1" "t0" []).2 in
  let m2 := (RegistrationManager.drop_registration "s1" "CS101" "t1" m1).2 in
  let m3 := (RegistrationManager.create_registration
               "s1" "CS101" "r2" "t2" m2).2 in
  let r2 := Registration.mk "r2" "s1" "CS101" ENROLLED "t2" None None "" in
  let r3 := Registration.mk "r3" "s1" "CS101" ENROLLED "t3" None None "" in
  active_for_pair "s1" "CS101" m3 = [r2]
  ∧ (RegistrationManager.create_registration
       "s1" "CS101" "r3" "t3" m3).1 = Some r3
  ∧ active_for_pair "s1" "CS101"
      (RegistrationManager.create_registration
         "s1" "CS101" "r3" "t3" m3).2 = [r2; r3].
Proof. vm_compute. repeat split; reflexivity. Qed.

(** C5. With a dropped record of the pair stored before the ENROLLED one,
    [drop_registration] answers [False] and changes nothing, although an
    ENROLLED registration of the pair exists. *)
Theorem C5_drop_misses_active_registration :
  let m1 := (RegistrationManager.create_registration
               "s1" "CS101" "r1" "t0" []).2 in
  let m2 := (RegistrationManager.drop_registration "s1" "CS101" "t1" m1).2 in
  let m3 := (RegistrationManager.create_registration
               "s1" "CS101" "r2" "t2" m2).2 in
  active_for_pair "s1" "CS101" m3
  = [Registration.mk "r2" "s1" "CS101" ENROLLED "t2" None None ""]
  ∧ RegistrationManager.drop_registration "s1" "CS101" "t3" m3 = (false, m3).
Proof. vm_compute. split; reflexivity. Qed.

End RegistrationRegistry.

Section RegistrationCleanup.

Variable fromisoformat : string → res Z.
Hypothesis fromisoformat_empty : fromisoformat "" = Raise ValueError.

Lemma filter_all {A} (P : A → Prop) `{∀ x, Decision (P x)} (l : list A) :
  (∀ x, x ∈ l → P x) → filter P l = l.
Proof.
  induction l as [|x l IH]; intros Hall; [reflexivity|].
  rewrite filter_cons_True by (apply Hall; left).
  rewrite IH; [reflexivity|]. intros y Hy. apply Hall. right. exact Hy.
Qed.

Lemma keys_filter_elem (P : string * Registration.t → Prop)
    `{∀ x, Decision (P x)} (d : Dict.t Registration.t) (k : string) :
  k ∈ Dict.keys (filter P d) → k ∈ Dict.keys d.
Proof.
  unfold Dict.keys. intros Hin.
  apply list_elem_of_fmap in Hin as (e & -> & Hin).
  apply list_elem_of_filter in Hin as [_ Hin].
  apply list_elem_of_fmap_2. exact Hin.
Qed.

Lemma keys_filter_NoDup (P : string * Registration.t → Prop)
    `{∀ x, Decision (P x)} (d : Dict.t Registration.t) :
  NoDup (Dict.keys d) → NoDup (Dict.keys (filter P d)).
Proof.
  induction d as [|e d IH]; intros Hnd; [constructor|].
  unfold Dict.keys in Hnd. rewrite fmap_cons in Hnd.
  apply NoDup_cons in Hnd as [He Hnd].
  destruct (decide (P e)).
  - rewrite filter_cons_True by assumption.
    unfold Dict.keys. rewrite fmap_cons. apply NoDup_cons. split.
    + intros Hin. apply He. apply (keys_filter_elem P d). exact Hin.
    + apply IH. exact Hnd.
  - rewrite filter_cons_False by assumption. apply IH. exact Hnd.
Qed.

Lemma del_present (d : Dict.t Registration.t) (k : string) :
  NoDup (Dict.keys d) → k ∈ Dict.keys d →
  Dict.del k d = Ok (filter (λ e, e.1 ≠ k) d).
Proof.
  unfold Dict.keys.
  induction d as [|[k' v] d IH]; intros Hnd Hin.
  - inversion Hin.
  - rewrite fmap_cons in Hnd, Hin. simpl in Hnd, Hin.
    apply NoDup_cons in Hnd as [Hk' Hnd]. cbn [Dict.del].
    destruct (decide (k = k')) as [->|Hne].
    + rewrite filter_cons_False by (simpl; tauto).
      rewrite filter_all; [reflexivity|].
      intros [k v'] Hkv Heq. simpl in Heq. subst k.
      apply Hk'. apply (list_elem_of_fmap_2 fst) in Hkv. exact Hkv.
    + apply elem_of_cons in Hin as [?|Hin]; [congruence|].
      rewrite (IH Hnd Hin). simpl.
      rewrite filter_cons_True by (simpl; congruence). reflexivity.
Qed.

Lemma remove_all_filter (ids : list string) :
  ∀ (count : Z) (d : Dict.t Registration.t),
  NoDup (Dict.keys d) → NoDup ids → (∀ k, k ∈ ids → k ∈ Dict.keys d) →
  RegistrationManager.remove_all ids count d
  = Ok (count + Z.of_nat (length ids), filter (λ e, e.1 ∉ ids) d).
Proof.
  induction ids as [|k ids IH]; intros count d Hnd Hids Hsub.
  - simpl. rewrite Z.add_0_r. rewrite filter_all; [reflexivity|].
    intros e _ He. inversion He.
  - apply NoDup_cons in Hids as [Hk Hids].
    cbn [RegistrationManager.remove_all].
    rewrite (del_present d k Hnd) by (apply Hsub; left).
    cbn [mbind res_bind]. rewrite IH.
    + f_equal. f_equal; [rewrite length_cons, Nat2Z.inj_succ; lia|].
      rewrite list_filter_filter. apply list_filter_iff.
      intros e. rewrite not_elem_of_cons. tauto.
    + apply keys_filter_NoDup. exact Hnd.
    + exact Hids.
    + intros k0 Hk0.
      assert (k0 ∈ Dict.keys d) as Hin by (apply Hsub; right; exact Hk0).
      unfold Dict.keys in *.
      apply list_elem_of_fmap in Hin as ([k1 v] & -> & Hin).
      apply (list_elem_of_fmap_2' fst _ (k1, v)); [|reflexivity].
      apply list_elem_of_filter. split; [|exact Hin].
      simpl. intros ->. apply Hk. exact Hk0.
Qed.

Lemma filter_ext_elem {A} (P Q : A → Prop) `{∀ x, Decision (P x)}
    `{∀ x, Decision (Q x)} (l : list A) :
  (∀ x, x ∈ l → (P x ↔ Q x)) → filter P l = filter Q l.
Proof.
  induction l as [|x l IH]; intros Hext; [reflexivity|].
  assert (filter P l = filter Q l) as Hl
    by (apply IH; intros y Hy; apply Hext; right; exact Hy).
  assert (P x ↔ Q x) as Hx by (apply Hext; left).
  destruct (decide (P x)) as [HP|HP].
  - rewrite (filter_cons_True P) by exact HP.
    rewrite (filter_cons_True Q) by (apply Hx; exact HP).
    rewrite Hl. reflexivity.
  - rewrite (filter_cons_False P) by exact HP.
    rewrite (filter_cons_False Q) by (rewrite <- Hx; exact HP).
    exact Hl.
Qed.

Lemma keys_functional (d : RegistrationManager.t) k r1 r2 :
  NoDup (Dict.keys d) → (k, r1) ∈ d → (k, r2) ∈ d → r1 = r2.
Proof.
  unfold Dict.keys.
  induction d as [|[k' v] d IH]; intros Hnd H1 H2; [inversion H1|].
  rewrite fmap_cons in Hnd. apply NoDup_cons in Hnd as [Hk' Hnd].
  apply elem_of_cons in H1 as [H1|H1], H2 as [H2|H2].
  - congruence.
  - exfalso. apply Hk'. injection H1 as <- _.
    apply (list_elem_of_fmap_2 fst) in H2. exact H2.
  - exfalso. apply Hk'. injection H2 as <- _.
    apply (list_elem_of_fmap_2 fst) in H1. exact H1.
  - exact (IH Hnd H1 H2).
Qed.

Lemma to_remove_stale (cutoff : Z) (r : Registration.t) :
  (∀ d, Registration.status r = DROPPED →
        Registration.drop_date r = Some d → d ≠ "" →
        ∃ t, fromisoformat d = Ok t) →
  RegistrationManager.to_remove fromisoformat cutoff r
  = Ok (stale fromisoformat cutoff r).
Proof.
  intros Hdated.
  unfold RegistrationManager.to_remove, stale, Registration.is_dropped.
  destruct (Registration.status r) eqn:Hst;
    try (rewrite bool_decide_eq_false_2 by discriminate; reflexivity).
  rewrite bool_decide_eq_true_2 by reflexivity.
  destruct (Registration.drop_date r) as [[|c d]|] eqn:Hdd.
  - rewrite fromisoformat_empty. reflexivity.
  - destruct (Hdated (String c d)) as [t Ht]; [reflexivity..|discriminate|].
    rewrite Ht. reflexivity.
  - reflexivity.
Qed.

Lemma collect_stale (cutoff : Z) (self : RegistrationManager.t) :
  (∀ k r, (k, r) ∈ self → k = Registration.registration_id r) →
  dated fromisoformat self →
  RegistrationManager.collect fromisoformat cutoff (Dict.values self)
  = Ok (Dict.keys (filter (λ e, stale fromisoformat cutoff e.2) self)).
Proof.
  unfold Dict.values, Dict.keys.
  induction self as [|[k r] self IH]; intros Hkeyed Hdated; [reflexivity|].
  rewrite fmap_cons. cbn [RegistrationManager.collect snd].
  rewrite to_remove_stale
    by (intros d Hst Hdd Hne; apply (Hdated k r d); auto; left).
  cbn [mbind res_bind]. rewrite IH.
  - cbn [mbind res_bind mret res_ret].
    destruct (stale fromisoformat cutoff r) eqn:Hstale.
    + rewrite filter_cons_True by (simpl; rewrite Hstale; exact I).
      rewrite fmap_cons. simpl.
      rewrite <- (Hkeyed k r) by left. reflexivity.
    + rewrite filter_cons_False by (simpl; rewrite Hstale; exact id).
      reflexivity.
  - intros k' r' Hin. apply Hkeyed. right. exact Hin.
  - intros k' r' d Hin. apply (Hdated k' r' d). right. exact Hin.
Qed.

Lemma cutoff_in_range (days_old now : Z) :
  RegistrationManager.is_datetime now →
  RegistrationManager.is_datetime (now - days_old * RegistrationManager.day) →
  RegistrationManager.timedelta_days days_old
  = Ok (days_old * RegistrationManager.day)
  ∧ RegistrationManager.datetime_sub now (days_old * RegistrationManager.day)
    = Ok (now - days_old * RegistrationManager.day).
Proof.
  unfold RegistrationManager.is_datetime, RegistrationManager.timedelta_days,
    RegistrationManager.datetime_sub, RegistrationManager.datetime_min,
    RegistrationManager.datetime_max, RegistrationManager.day.
  intros Hnow Hcut. split.
  - destruct (Z.leb_spec (Z.abs days_old) 999999999); [reflexivity|lia].
  - destruct (Z.leb_spec (-62135596800000000) (now - days_old * 86400000000)),
      (Z.leb_spec (now - days_old * 86400000000) 253402300799999999);
      first [reflexivity|lia].
Qed.

Lemma cutoff_out_of_range (days_old now : Z) (self : RegistrationManager.t) :
  ¬ RegistrationManager.is_datetime
      (now - days_old * RegistrationManager.day) →
  RegistrationManager.cleanup_old_registrations fromisoformat days_old now self
  = Raise OverflowError.
Proof.
  unfold RegistrationManager.cleanup_old_registrations,
    RegistrationManager.is_datetime, RegistrationManager.timedelta_days,
    RegistrationManager.datetime_sub.
  intros Hout.
  destruct (Z.abs days_old <=? 999999999); [|reflexivity].
  cbn [mbind res_bind].
  destruct (Z.leb_spec RegistrationManager.datetime_min
              (now - days_old * RegistrationManager.day)),
    (Z.leb_spec (now - days_old * RegistrationManager.day)
       RegistrationManager.datetime_max); try reflexivity.
  destruct Hout. split; assumption.
Qed.

(** What [cleanup_old_registrations] computes on a well-formed registry
    when the cutoff is a [datetime]. *)
Lemma cleanup_as_filter (days_old now : Z) (self : RegistrationManager.t) :
  well_keyed self → dated fromisoformat self →
  RegistrationManager.is_datetime now →
  let cutoff := now - days_old * RegistrationManager.day in
  RegistrationManager.is_datetime cutoff →
  RegistrationManager.cleanup_old_registrations fromisoformat days_old now self
  = Ok (Z.of_nat (length (filter (λ e, stale fromisoformat cutoff e.2) self)),
        filter (λ e, ¬ stale fromisoformat cutoff e.2) self).
Proof.
  intros [Hnd Hkeyed] Hdated Hnow cutoff Hcutoff.
  unfold RegistrationManager.cleanup_old_registrations.
  destruct (cutoff_in_range days_old now Hnow Hcutoff) as [-> Hsub].
  cbn [mbind res_bind]. rewrite Hsub. cbn [mbind res_bind]. fold cutoff.
  rewrite (collect_stale cutoff self Hkeyed Hdated).
  cbn [mbind res_bind]. rewrite remove_all_filter.
  - unfold Dict.keys. rewrite length_fmap, Z.add_0_l. f_equal. f_equal.
    apply filter_ext_elem. intros [k r] Hin. simpl. split.
    + intros Hk Hstale. apply Hk.
      apply (list_elem_of_fmap_2' fst _ (k, r)); [|reflexivity].
      apply list_elem_of_filter. split; assumption.
    + intros Hfresh Hk.
      apply list_elem_of_fmap in Hk as ([k' r'] & Heq & Hin').
      simpl in Heq. subst k'.
      apply list_elem_of_filter in Hin' as [Hstale Hin']. simpl in Hstale.
      rewrite (keys_functional self k r r' Hnd Hin Hin') in Hfresh.
      exact (Hfresh Hstale).
  - exact Hnd.
  - apply keys_filter_NoDup. exact Hnd.
  - intros k. apply keys_filter_elem.
Qed.

(** C8, as the code has it. On a dict as the manager builds it, whose
    dropped registrations carry timestamps, and for a [days_old] for which
    [now - days_old] days is a [datetime] (a date of the years 1 to 9999),
    [cleanup_old_registrations days_old] removes exactly the DROPPED
    registrations whose [drop_date] is older than that cutoff, keeps the
    others in their order, and answers the number of registrations removed;
    a registration that is ENROLLED, WAITLISTED or PENDING is never
    removed. For every other [days_old] it raises [OverflowError] and
    removes nothing. *)
Theorem C8_cleanup_old_registrations (days_old now : Z)
    (self : RegistrationManager.t) :
  well_keyed self →
  dated fromisoformat self →
  RegistrationManager.is_datetime now →
  let cutoff := now - days_old * RegistrationManager.day in
  (RegistrationManager.is_datetime cutoff →
   RegistrationManager.cleanup_old_registrations fromisoformat days_old now
     self
   = Ok (Z.of_nat
           (length (filter (λ e, stale fromisoformat cutoff e.2) self)),
         filter (λ e, ¬ stale fromisoformat cutoff e.2) self)
   ∧ ∀ k r, (k, r) ∈ self → Registration.status r ≠ DROPPED →
            (k, r) ∈ filter (λ e, ¬ stale fromisoformat cutoff e.2) self)
  ∧ (¬ RegistrationManager.is_datetime cutoff →
     RegistrationManager.cleanup_old_registrations fromisoformat days_old now
       self
     = Raise OverflowError).
Proof.
  intros Hwk Hdated Hnow cutoff. split.
  - intros Hcutoff. split.
    + apply cleanup_as_filter; assumption.
    + intros k r Hin Hst. apply list_elem_of_filter. split; [|exact Hin].
      simpl. unfold stale. destruct (Registration.status r); try exact id.
      congruence.
  - apply cutoff_out_of_range.
Qed.

End RegistrationCleanup.

Lemma C8_cleanup_old_registrations_witness :
  let enrolled_long_ago :=
    Registration.mk "r1" "s1" "CS101" ENROLLED "2024-04-20T09:00:00"
                    None None "" in
  let dropped_long_ago :=
    Registration.mk "r2" "s2" "CS101" DROPPED "2024-04-20T09:00:00"
                    (Some "2024-04-27T09:00:00") None "" in
  let dropped_lately :=
    Registration.mk "r3" "s3" "CS101" DROPPED "2025-05-02T08:15:00"
                    (Some "2025-05-20T10:30:00.250000") None "" in
  let self := [("r1", enrolled_long_ago); ("r2", dropped_long_ago);
               ("r3", dropped_lately)] in
  let now := 1748736000000000 in
  Iso.fromisoformat "2025-06-01T00:00:00" = Ok now
  ∧ RegistrationManager.cleanup_old_registrations Iso.fromisoformat 365 now
      self
    = Ok (1, [("r1", enrolled_long_ago); ("r3", dropped_lately)])
  ∧ RegistrationManager.cleanup_old_registrations Iso.fromisoformat 800000
      now self
    = Raise OverflowError.
Proof.
  intros enrolled_long_ago dropped_long_ago dropped_lately self now.
  split; [vm_compute; reflexivity|].
  assert (well_keyed self) as Hkeyed.
  { split.
    - unfold Dict.keys. simpl. repeat (apply NoDup_cons; split);
        [| |
         |apply NoDup_nil; exact I];
        rewrite ?not_elem_of_cons; repeat split; try discriminate;
        apply not_elem_of_nil.
    - intros k r Hin.
      repeat (apply elem_of_cons in Hin as [Hin|Hin]);
        [injection Hin as -> ->; reflexivity..|inversion Hin]. }
  assert (dated Iso.fromisoformat self) as Hdated.
  { intros k r d Hin Hst Hdd _.
    repeat (apply elem_of_cons in Hin as [Hin|Hin]);
      [injection Hin as -> ->..|inversion Hin].
    - discriminate Hst.
    - injection Hdd as <-. eexists. vm_compute. reflexivity.
    - injection Hdd as <-. eexists. vm_compute. reflexivity. }
  assert (RegistrationManager.is_datetime now) as Hnow
    by (unfold RegistrationManager.is_datetime,
          RegistrationManager.datetime_min, RegistrationManager.datetime_max;
        subst now; lia).
  split.
  - destruct (C8_cleanup_old_registrations Iso.fromisoformat eq_refl 365 now
                self Hkeyed Hdated Hnow) as [Hclean _].
    destruct Hclean as [Hclean _].
    + unfold RegistrationManager.is_datetime,
        RegistrationManager.datetime_min, RegistrationManager.datetime_max,
        RegistrationManager.day. subst now. lia.
    + rewrite Hclean. vm_compute. reflexivity.
  - destruct (C8_cleanup_old_registrations Iso.fromisoformat eq_refl 800000
                now self Hkeyed Hdated Hnow) as [_ Hover].
    apply Hover.
    unfold RegistrationManager.is_datetime,
      RegistrationManager.datetime_min, RegistrationManager.datetime_max,
      RegistrationManager.day. subst now. lia.
Defined.

(** C8, as the specification states it, fails: with [days_old] 800000 the
    cutoff lies before the year 1, and the cleanup answers no count but
    raises [OverflowError], on 2025-06-01 and on a registry with nothing to
    remove. *)
Lemma C8_cleanup_raises_overflow :
  Iso.fromisoformat "2025-06-01T00:00:00" = Ok 1748736000000000
  ∧ RegistrationManager.cleanup_old_registrations Iso.fromisoformat 800000
      1748736000000000
      [("r1", Registration.mk "r1" "s1" "CS101" ENROLLED
                "2024-04-20T09:00:00" None None "")]
    = Raise OverflowError.
Proof. split; vm_compute; reflexivity. Qed.

(** * The scenarios of the specification *)

Section Scenarios.

Let scheduled (days : list string) (time room : string) : Course.t :=
  Course.set_schedule days time room "t1"
    (Course.init "C" "Course" "" 3 "Ada" 30 None "t0").

Example touching_intervals_do_not_conflict :
  Course.conflicts_with (scheduled ["Monday"] "10:00-11:30" "R1")
                        (scheduled ["Monday"] "11:30-13:00" "R1")
  = Ok false.
Proof. vm_compute. reflexivity. Qed.

Example overlapping_intervals_conflict :
  Course.conflicts_with (scheduled ["Monday"] "10:00-11:30" "R1")
                        (scheduled ["Monday"] "11:00-12:00" "R1")
  = Ok true.
Proof. vm_compute. reflexivity. Qed.

Example same_slot_in_two_rooms_conflicts :
  Course.conflicts_with (scheduled ["Monday"] "10:00-11:30" "R1")
                        (scheduled ["Monday"] "10:00-11:30" "R2")
  = Ok true.
Proof. vm_compute. reflexivity. Qed.

Example capacity_one :
  let c0 := Course.init "CS101" "Intro" "" 3 "Ada" 1 None "t0" in
  let '(b1, c1) := Course.enroll_student "t1" c0 in
  let '(b2, c2) := Course.enroll_student "t2" c1 in
  let '(b3, c3) := Course.drop_student "t3" c2 in
  (b1, Course.enrolled c1, b2, Course.enrolled c2, b3, Course.enrolled c3)
  = (true, 1, false, 1, true, 0).
Proof. vm_compute. reflexivity. Qed.

Example create_twice :
  let '(r1, m1) :=
    RegistrationManager.create_registration "s1" "CS101" "r1" "t0" [] in
  let '(r2, m2) :=
    RegistrationManager.create_registration "s1" "CS101" "r2" "t1" m1 in
  r1 = Some (Registration.mk "r1" "s1" "CS101" ENROLLED "t0" None None "")
  ∧ r2 = None ∧ m2 = m1.
Proof. vm_compute. repeat split; reflexivity. Qed.

End Scenarios.

(** * Further properties of [Schedule] and [Course] *)

Section CourseFurther.

(** X1. A schedule written by [to_dict] is read back unchanged by
    [Schedule.from_dict]. *)
Theorem X1_schedule_from_dict_to_dict (s : Schedule.t) :
  Schedule.from_dict (Schedule.to_dict s) = Ok s.
Proof. apply Schedule_from_dict_to_dict. Qed.

(** X2. [Course.from_dict] raises [KeyError] on a record that lacks one of
    [course_id], [name], [description], [credits], [instructor]. *)
Theorem X2_course_from_dict_missing_key (now_init now_dflt : string)
    (data : gmap string Py.pyval) (k : string) :
  k ∈ ["course_id"; "name"; "description"; "credits"; "instructor"] →
  data !! k = None →
  Course.from_dict now_init now_dflt data = Raise KeyError.
Proof.
  intros Hk Hmiss. unfold Course.from_dict, Course.item, Py.item.
  repeat (apply elem_of_cons in Hk as [->|Hk]); [..|inversion Hk];
    repeat match goal with
           | |- context [or_raise KeyError (data !! ?key)] =>
               first [rewrite Hmiss; reflexivity
                     |destruct (data !! key); cbn [or_raise mbind res_bind];
                      [|reflexivity]]
           end.
Qed.

Lemma X2_course_from_dict_missing_key_witness :
  Course.from_dict "t0" "t1"
    {[ "course_id" := Py.VStr "CS101"; "name" := Py.VStr "Intro";
       "description" := Py.VStr ""; "instructor" := Py.VStr "Ada" ]}
  = Raise KeyError.
Proof.
  apply (X2_course_from_dict_missing_key "t0" "t1" _ "credits").
  - do 3 right. left.
  - vm_compute. reflexivity.
Defined.

(** X3. On a record that holds the five required keys and nothing else,
    [Course.from_dict] fills in the defaults: capacity 30, nobody enrolled,
    no prerequisites, no schedule, active, and both timestamps equal to the
    clock read for the default of [created_at]. *)
Theorem X3_course_from_dict_defaults (now_init now_dflt : string)
    (cid nm descr : string) (cr : Z) (ins : string) :
  Course.from_dict now_init now_dflt
    {[ "course_id" := Py.VStr cid; "name" := Py.VStr nm;
       "description" := Py.VStr descr; "credits" := Py.VInt cr;
       "instructor" := Py.VStr ins ]}
  = Ok (Course.mk cid nm descr cr ins 30 0 [] None true now_dflt now_dflt).
Proof.
  unfold Course.from_dict, Course.item, Py.item, Py.get_none, Py.get.
  simplify_map_eq. reflexivity.
Qed.

(** X4. [get_available_seats] is never negative, is [capacity - enrolled]
    while the counter invariant holds, and [enroll_student] succeeds exactly
    when the course is active and has a seat available; a successful
    enrollment takes one seat. *)
Theorem X4_available_seats (now : string) (self : Course.t) :
  0 ≤ Course.get_available_seats self
  ∧ (Course.enrolled self ≤ Course.capacity self →
     Course.get_available_seats self
     = Course.capacity self - Course.enrolled self)
  ∧ ((Course.enroll_student now self).1 = true
     ↔ Course.is_active self = true ∧ 0 < Course.get_available_seats self)
  ∧ ((Course.enroll_student now self).1 = true →
     Course.get_available_seats (Course.enroll_student now self).2
     = Course.get_available_seats self - 1).
Proof.
  unfold Course.get_available_seats, Course.enroll_student,
    Course.can_enroll, Course.is_full.
  destruct self as [cid nm descr cr ins cap enr pre sch act cre upd]; simpl.
  destruct act, (Z.leb_spec cap enr); simpl;
    repeat split; intros; try lia; try discriminate;
    try (destruct_and?; discriminate); destruct_and?; lia.
Qed.

Lemma X4_available_seats_witness :
  let c := Course.init "CS101" "Intro" "" 3 "Ada" 2 None "t0" in
  Course.get_available_seats c = 2
  ∧ Course.get_available_seats (Course.enroll_student "t1" c).2 = 1.
Proof.
  intros c.
  destruct (X4_available_seats "t1" c) as (_ & Hseats & _ & Htake).
  split.
  - rewrite Hseats; [reflexivity|simpl; lia].
  - rewrite Htake; [|reflexivity]. rewrite Hseats; [reflexivity|simpl; lia].
Defined.

(** X5. [drop_student] succeeds exactly when somebody is enrolled and then
    takes one off the counter; otherwise the course is left as it was. A
    drop after a successful enrollment restores the counter. *)
Theorem X5_drop_student (now now' : string) (self : Course.t) :
  ((Course.drop_student now self).1 = true ↔ 0 < Course.enrolled self)
  ∧ (0 < Course.enrolled self →
     Course.enrolled (Course.drop_student now self).2
     = Course.enrolled self - 1)
  ∧ (Course.enrolled self ≤ 0 →
     Course.drop_student now self = (false, self))
  ∧ (0 ≤ Course.enrolled self →
     (Course.enroll_student now self).1 = true →
     (Course.drop_student now' (Course.enroll_student now self).2).1 = true
     ∧ Course.enrolled
         (Course.drop_student now' (Course.enroll_student now self).2).2
       = Course.enrolled self).
Proof.
  unfold Course.drop_student, Course.enroll_student.
  destruct self as [cid nm descr cr ins cap enr pre sch act cre upd]; simpl.
  repeat split.
  - destruct (Z.ltb_spec 0 enr); simpl; [lia|discriminate].
  - intros H. destruct (Z.ltb_spec 0 enr); simpl; [reflexivity|lia].
  - intros H. destruct (Z.ltb_spec 0 enr); simpl; [reflexivity|lia].
  - intros H. destruct (Z.ltb_spec 0 enr); simpl; [lia|reflexivity].
  - destruct (Course.can_enroll _); simpl in *; [|discriminate].
    destruct (Z.ltb_spec 0 (enr + 1)); simpl; [reflexivity|lia].
  - destruct (Course.can_enroll _); simpl in *; [|discriminate].
    destruct (Z.ltb_spec 0 (enr + 1)); simpl; lia.
Qed.

Lemma X5_drop_student_witness :
  let c := Course.init "CS101" "Intro" "" 3 "Ada" 2 None "t0" in
  (Course.drop_student "t2" (Course.enroll_student "t1" c).2).1 = true
  ∧ Course.enrolled
      (Course.drop_student "t2" (Course.enroll_student "t1" c).2).2 = 0.
Proof.
  intros c.
  apply (X5_drop_student "t1" "t2" c); [simpl; lia|reflexivity].
Defined.

(** X6. [check_prerequisites] answers [True] exactly when every prerequisite
    of the course is among the completed courses; a course without
    prerequisites is open to everybody, and completing more courses never
    closes a course. *)
Theorem X6_check_prerequisites (completed : list string) (self : Course.t) :
  (Course.check_prerequisites completed self = true
   ↔ ∀ p, p ∈ Course.prerequisites self → p ∈ completed)
  ∧ (Course.has_prerequisites self = false →
     Course.check_prerequisites completed self = true)
  ∧ (∀ more,
       Course.check_prerequisites completed self = true →
       Course.check_prerequisites (more ++ completed)%list self = true).
Proof.
  assert (∀ done_, Course.check_prerequisites done_ self = true
                   ↔ ∀ p, p ∈ Course.prerequisites self → p ∈ done_) as Hiff.
  { intros done_. unfold Course.check_prerequisites, Course.has_prerequisites.
    destruct (Course.prerequisites self) as [|p ps] eqn:Hpre.
    - simpl. split; [intros _ p Hp; inversion Hp|reflexivity].
    - cbn [length Nat.ltb Nat.leb negb]. rewrite forallb_forall.
      split.
      + intros Hall q Hq. apply list_elem_of_In in Hq.
        apply Hall in Hq. apply bool_decide_eq_true in Hq. exact Hq.
      + intros Hall q Hq. apply bool_decide_eq_true. apply Hall.
        apply list_elem_of_In. exact Hq. }
  split; [apply Hiff|]. split.
  - unfold Course.check_prerequisites. intros ->. reflexivity.
  - intros more Hok. apply Hiff. intros p Hp. apply elem_of_app. right.
    apply (proj1 (Hiff completed) Hok). exact Hp.
Qed.

Lemma X6_check_prerequisites_witness :
  let c := Course.init "CS201" "Data" "" 3 "Ada" 30
                       (Some ["CS101"; "MATH101"]) "t0" in
  Course.check_prerequisites ["ENG101"; "MATH101"; "CS101"] c = true.
Proof.
  intros c.
  destruct (X6_check_prerequisites ["MATH101"; "CS101"] c) as (_ & _ & Hmore).
  apply (Hmore ["ENG101"]). vm_compute. reflexivity.
Defined.

End CourseFurther.

Section ConflictsFurther.


(** [_time_overlaps] in terms of the two intervals. *)
Lemma time_overlaps_cases (a b : string) :
  Course._time_overlaps a b
  = match minute_interval a, minute_interval b with
    | Ok (s1, e1), Ok (s2, e2) => Ok (negb ((e1 <=? s2) || (e2 <=? s1)))
    | _, _ => Raise ValueError
    end.
Proof.
  unfold minute_interval, Course._time_overlaps.
  destruct (parse_time_outcome a) as [[[a1 a2] ->] | ->]; [|reflexivity].
  destruct (parse_time_outcome b) as [[[b1 b2] ->] | ->]; simpl.
  - destruct (time_to_minutes_outcome a1) as [[x1 ->] | ->]; [|reflexivity].
    simpl.
    destruct (time_to_minutes_outcome a2) as [[y1 ->] | ->]; [|reflexivity].
    simpl.
    destruct (time_to_minutes_outcome b1) as [[x2 ->] | ->]; [|reflexivity].
    simpl.
    destruct (time_to_minutes_outcome b2) as [[y2 ->] | ->]; reflexivity.
  - destruct (time_to_minutes_outcome a1) as [[x1 ->] | ->]; [|reflexivity].
    simpl.
    destruct (time_to_minutes_outcome a2) as [[y1 ->] | ->]; reflexivity.
Qed.

(** X7. [conflicts_with] is symmetric, in its answer and in its failure:
    [a.conflicts_with(b)] and [b.conflicts_with(a)] give the same result. *)
Theorem X7_conflicts_with_symmetric (a b : Course.t) :
  Course.conflicts_with a b = Course.conflicts_with b a.
Proof.
  unfold Course.conflicts_with.
  destruct (Course.schedule a) as [s|], (Course.schedule b) as [o|];
    try reflexivity.
  unfold Course.common_days.
  rewrite (comm_L (∩) (list_to_set (Schedule.days o))).
  destruct (bool_decide _); [reflexivity|].
  rewrite !time_overlaps_cases.
  destruct (minute_interval (Schedule.time s)) as [[s1 e1]| |],
           (minute_interval (Schedule.time o)) as [[s2 e2]| |];
    try reflexivity.
  rewrite orb_comm. reflexivity.
Qed.



End ConflictsFurther.

(** * Properties of [CourseManager] *)

Section DictFacts.

Context {V : Type}.
Implicit Types (d : Dict.t V) (k : string) (v : V).

Lemma dict_get_elem d k v : Dict.get k d = Some v → (k, v) ∈ d.
Proof.
  induction d as [|[k' v'] d IH]; cbn [Dict.get]; [discriminate|].
  destruct (decide (k = k')) as [->|Hne].
  - intros [= ->]. left.
  - intros H. right. exact (IH H).
Qed.

Lemma dict_get_None d k : Dict.get k d = None ↔ k ∉ Dict.keys d.
Proof.
  unfold Dict.keys. induction d as [|[k' v'] d IH]; cbn [Dict.get].
  - split; [intros _ H; inversion H|reflexivity].
  - rewrite fmap_cons, not_elem_of_cons. cbn [fst].
    destruct (decide (k = k')); [|tauto].
    split; [discriminate|tauto].
Qed.

Lemma dict_mem_get d k : Dict.mem k d = true ↔ is_Some (Dict.get k d).
Proof.
  unfold Dict.mem. rewrite bool_decide_eq_true.
  destruct (Dict.get k d) eqn:Hget.
  - split; [eauto|]. intros _.
    destruct (decide (k ∈ Dict.keys d)) as [?|Hno]; [assumption|].
    apply dict_get_None in Hno. congruence.
  - split; [|intros [? [=]]]. intros Hin.
    apply dict_get_None in Hget. contradiction.
Qed.

Lemma dict_get_set_eq d k v : Dict.get k (Dict.set k v d) = Some v.
Proof.
  induction d as [|[k' v'] d IH]; cbn [Dict.set Dict.get].
  - rewrite decide_True by reflexivity. reflexivity.
  - destruct (decide (k = k')) as [->|Hne]; cbn [Dict.get].
    + rewrite decide_True by reflexivity. reflexivity.
    + rewrite decide_False by exact Hne. exact IH.
Qed.

Lemma dict_get_set_ne d k k' v :
  k' ≠ k → Dict.get k' (Dict.set k v d) = Dict.get k' d.
Proof.
  intros Hne. induction d as [|[k0 v0] d IH]; cbn [Dict.set Dict.get].
  - rewrite decide_False by exact Hne. reflexivity.
  - destruct (decide (k = k0)) as [->|Hne0]; cbn [Dict.get].
    + rewrite !decide_False by exact Hne. reflexivity.
    + destruct (decide (k' = k0)); [reflexivity|exact IH].
Qed.

Lemma dict_set_new d k v :
  Dict.get k d = None → Dict.set k v d = (d ++ [(k, v)])%list.
Proof.
  induction d as [|[k' v'] d IH]; cbn [Dict.set Dict.get]; [reflexivity|].
  destruct (decide (k = k')); [discriminate|].
  intros H. rewrite (IH H). reflexivity.
Qed.

Lemma dict_set_keys_present d k v :
  is_Some (Dict.get k d) → Dict.keys (Dict.set k v d) = Dict.keys d.
Proof.
  unfold Dict.keys.
  induction d as [|[k' v'] d IH]; cbn [Dict.set Dict.get];
    [intros [? [=]]|].
  destruct (decide (k = k')) as [->|Hne]; [reflexivity|].
  intros H. rewrite !fmap_cons, (IH H). reflexivity.
Qed.

Lemma dict_set_elem d k v (e : string * V) :
  NoDup (Dict.keys d) → e ∈ Dict.set k v d →
  e = (k, v) ∨ (e ∈ d ∧ e.1 ≠ k).
Proof.
  unfold Dict.keys.
  induction d as [|[k' v'] d IH]; cbn [Dict.set]; intros Hnd He.
  - apply list_elem_of_singleton in He. left. exact He.
  - rewrite fmap_cons in Hnd. apply NoDup_cons in Hnd as [Hk' Hnd].
    destruct (decide (k = k')) as [->|Hne];
      apply elem_of_cons in He as [He|He].
    + left. exact He.
    + right. split; [right; exact He|].
      intros Heq. apply Hk'. cbn [fst]. rewrite <- Heq.
      apply (list_elem_of_fmap_2 fst). exact He.
    + right. subst e. split; [left|]. simpl. congruence.
    + destruct (IH Hnd He) as [?|[? ?]]; [left; assumption|].
      right. split; [right|]; assumption.
Qed.

End DictFacts.

Section CourseRegistry.

(** X9. [add_course] never overwrites: an id already stored makes it answer
    [False] and change nothing; a new id is stored, after the courses
    already there, and is found by [get_course], which answers as before
    for every other id. *)
Theorem X9_add_course (course : Course.t) (self : CourseManager.t) :
  (is_Some (CourseManager.get_course (Course.course_id course) self) →
   CourseManager.add_course course self = (false, self))
  ∧ (CourseManager.get_course (Course.course_id course) self = None →
     let self' := (CourseManager.add_course course self).2 in
     (CourseManager.add_course course self).1 = true
     ∧ CourseManager.get_course (Course.course_id course) self' = Some course
     ∧ CourseManager.get_all_courses self'
       = (CourseManager.get_all_courses self ++ [course])%list
     ∧ ∀ k, k ≠ Course.course_id course →
            CourseManager.get_course k self'
            = CourseManager.get_course k self).
Proof.
  unfold CourseManager.add_course, CourseManager.get_course,
    CourseManager.get_all_courses. split.
  - intros Hin. apply dict_mem_get in Hin. rewrite Hin. reflexivity.
  - intros Hnew.
    assert (Dict.mem (Course.course_id course) self = false) as ->.
    { destruct (Dict.mem _ self) eqn:Hmem; [|reflexivity].
      apply dict_mem_get in Hmem as [? Hsome]. congruence. }
    cbn [negb fst snd]. repeat split.
    + apply dict_get_set_eq.
    + rewrite (dict_set_new _ _ _ Hnew). unfold Dict.values.
      rewrite fmap_app. reflexivity.
    + intros k Hk. apply dict_get_set_ne. exact Hk.
Qed.

Lemma X9_add_course_witness :
  let cs101 := Course.init "CS101" "Intro" "" 3 "Ada" 30 None "t0" in
  let again := Course.init "CS101" "Other" "" 4 "Bob" 10 None "t1" in
  CourseManager.add_course again (CourseManager.add_course cs101 []).2
  = (false, (CourseManager.add_course cs101 []).2).
Proof.
  intros cs101 again.
  apply (X9_add_course again). vm_compute. eauto.
Defined.

(** X10. [delete_course] is a soft delete: the course stays stored under its
    id, with every attribute but [is_active] (now [False]) and [updated_at]
    as before, no id is added or removed, the other courses are as before,
    and the deleted course no longer accepts enrollments. An unknown id
    makes it answer [False] and change nothing. *)
Theorem X10_delete_course (course_id now now' : string)
    (self : CourseManager.t) :
  (CourseManager.get_course course_id self = None →
   CourseManager.delete_course course_id now self = (false, self))
  ∧ (∀ c, CourseManager.get_course course_id self = Some c →
       let self' := (CourseManager.delete_course course_id now self).2 in
       (CourseManager.delete_course course_id now self).1 = true
       ∧ CourseManager.get_course course_id self'
         = Some (Course.mk (Course.course_id c) (Course.name c)
                   (Course.description c) (Course.credits c)
                   (Course.instructor c) (Course.capacity c)
                   (Course.enrolled c) (Course.prerequisites c)
                   (Course.schedule c) false (Course.created_at c) now)
       ∧ Dict.keys self' = Dict.keys self
       ∧ (∀ k, k ≠ course_id →
               CourseManager.get_course k self'
               = CourseManager.get_course k self)
       ∧ ∀ c', CourseManager.get_course course_id self' = Some c' →
               Course.enroll_student now' c' = (false, c')).
Proof.
  unfold CourseManager.delete_course, CourseManager.get_course. split.
  - intros ->. reflexivity.
  - intros c Hc. rewrite Hc. cbn [fst snd]. repeat split.
    + apply dict_get_set_eq.
    + apply dict_set_keys_present. rewrite Hc. eauto.
    + intros k Hk. apply dict_get_set_ne. exact Hk.
    + intros c'. rewrite dict_get_set_eq. intros [= <-]. reflexivity.
Qed.

Lemma X10_delete_course_witness :
  let cs101 := Course.init "CS101" "Intro" "" 3 "Ada" 30 None "t0" in
  let self := (CourseManager.add_course cs101 []).2 in
  CourseManager.get_course "CS101"
    (CourseManager.delete_course "CS101" "t1" self).2
  = Some (Course.mk "CS101" "Intro" "" 3 "Ada" 30 0 [] None false "t0" "t1").
Proof.
  intros cs101 self.
  destruct (X10_delete_course "CS101" "t1" "t2" self) as [_ Hdel].
  destruct (Hdel cs101) as (_ & Hget & _); [reflexivity|].
  exact Hget.
Defined.

Lemma set_courses_keyed (k : string) (c : Course.t) (self : CourseManager.t) :
  courses_keyed self → k = Course.course_id c →
  courses_keyed (Dict.set k c self).
Proof.
  intros [Hnd Hkeyed] Hk. split.
  - destruct (Dict.get k self) eqn:Hget.
    + rewrite dict_set_keys_present by (rewrite Hget; eauto). exact Hnd.
    + rewrite (dict_set_new _ _ _ Hget). unfold Dict.keys.
      rewrite fmap_app. apply NoDup_app. repeat split.
      * exact Hnd.
      * intros x Hx Hx'. apply list_elem_of_singleton in Hx'. subst x.
        apply dict_get_None in Hget. exact (Hget Hx).
      * apply NoDup_singleton.
  - intros k' c' Hin.
    apply (dict_set_elem _ _ _ _ Hnd) in Hin as [[= -> ->]|[Hin _]];
      [exact Hk|apply Hkeyed; exact Hin].
Qed.

Lemma run_catalog_call_keyed (self : CourseManager.t) (c : catalog_call) :
  courses_keyed self → courses_keyed (run_catalog_call self c).
Proof.
  intros Hwk. destruct c as [course|cid now]; cbn [run_catalog_call].
  - unfold CourseManager.add_course.
    destruct (negb _); [|exact Hwk]. apply set_courses_keyed; auto.
  - unfold CourseManager.delete_course, CourseManager.get_course.
    destruct (Dict.get cid self) as [c|] eqn:Hget; [|exact Hwk].
    apply set_courses_keyed; [exact Hwk|]. cbn [Course.course_id].
    destruct Hwk as [_ Hkeyed]. apply Hkeyed.
    apply dict_get_elem. exact Hget.
Qed.

Lemma run_catalog_call_keys (self : CourseManager.t) (c : catalog_call)
    (k : string) :
  k ∈ Dict.keys self → k ∈ Dict.keys (run_catalog_call self c).
Proof.
  intros Hk.
  assert (∀ k' v, k ∈ Dict.keys (Dict.set k' v self)) as Hset.
  { intros k' v. destruct (Dict.get k' self) eqn:Hget.
    - rewrite dict_set_keys_present by (rewrite Hget; eauto). exact Hk.
    - rewrite (dict_set_new _ _ _ Hget). unfold Dict.keys.
      rewrite fmap_app. apply elem_of_app. left. exact Hk. }
  destruct c as [course|cid now]; cbn [run_catalog_call].
  - unfold CourseManager.add_course. destruct (negb _); [apply Hset|exact Hk].
  - unfold CourseManager.delete_course.
    destruct (CourseManager.get_course cid self); [apply Hset|exact Hk].
Qed.

Lemma catalog_keyed (calls : list catalog_call) :
  courses_keyed (foldl run_catalog_call [] calls).
Proof.
  assert (∀ self, courses_keyed self →
                  courses_keyed (foldl run_catalog_call self calls)) as H.
  { induction calls as [|c calls IH]; intros self Hwk; [exact Hwk|].
    apply IH, run_catalog_call_keyed, Hwk. }
  apply H. split; [constructor|]. intros k c Hin. inversion Hin.
Qed.

(** X11. Whatever sequence of [add_course] and [delete_course] calls is run
    on an empty manager, every course is stored under its own id, no id is
    stored twice, and an id once stored stays stored. *)
Theorem X11_catalog_keeps_ids (calls : list catalog_call) :
  courses_keyed (foldl run_catalog_call [] calls)
  ∧ ∀ (before after : list catalog_call) k,
      calls = (before ++ after)%list →
      k ∈ Dict.keys (foldl run_catalog_call [] before) →
      k ∈ Dict.keys (foldl run_catalog_call [] calls).
Proof.
  split; [apply catalog_keyed|].
  intros before after k -> Hk. rewrite foldl_app.
    generalize dependent (foldl run_catalog_call [] before).
    induction after as [|c after IH]; intros self Hk; [exact Hk|].
    apply IH, run_catalog_call_keys, Hk.
Qed.

Lemma X11_catalog_keeps_ids_witness :
  let cs101 := Course.init "CS101" "Intro" "" 3 "Ada" 30 None "t0" in
  "CS101" ∈ Dict.keys (foldl run_catalog_call []
                         [CallAddCourse cs101;
                          CallDeleteCourse "CS101" "t1"]).
Proof.
  intros cs101.
  destruct (X11_catalog_keeps_ids
              [CallAddCourse cs101; CallDeleteCourse "CS101" "t1"])
    as [_ Hkept].
  apply (Hkept [CallAddCourse cs101] [CallDeleteCourse "CS101" "t1"]).
  - reflexivity.
  - vm_compute. left.
Defined.

(** X12. In a manager that stores every course under its own id, a deleted
    course is no longer listed by [get_active_courses], and the deletion
    adds nothing to that list. *)
Theorem X12_deleted_course_not_active (course_id now : string)
    (self : CourseManager.t) (c : Course.t) :
  courses_keyed self →
  c ∈ CourseManager.get_active_courses
        (CourseManager.delete_course course_id now self).2 →
  Course.course_id c ≠ course_id
  ∧ c ∈ CourseManager.get_active_courses self.
Proof.
  intros [Hnd Hkeyed]. unfold CourseManager.get_active_courses,
    CourseManager.delete_course, CourseManager.get_course, Dict.values.
  destruct (Dict.get course_id self) as [old|] eqn:Hget; cbn [snd].
  - intros Hc. apply list_elem_of_filter in Hc as [Hact Hc].
    apply list_elem_of_fmap in Hc as ([k c'] & -> & Hin). cbn [snd] in *.
    apply (dict_set_elem _ _ _ _ Hnd) in Hin as [[= -> ->]|[Hin Hne]].
    + simpl in Hact. destruct Hact.
    + cbn [fst] in Hne. rewrite <- (Hkeyed k c' Hin). split; [exact Hne|].
      apply list_elem_of_filter. split; [exact Hact|].
      apply (list_elem_of_fmap_2 snd _ (k, c')). exact Hin.
  - intros Hc. split; [|exact Hc].
    apply list_elem_of_filter in Hc as [_ Hc].
    apply list_elem_of_fmap in Hc as ([k c'] & -> & Hin). cbn [snd].
    rewrite <- (Hkeyed k c' Hin). intros ->.
    apply dict_get_None in Hget. apply Hget.
    apply (list_elem_of_fmap_2 fst _ (course_id, c')). exact Hin.
Qed.

Lemma X12_deleted_course_not_active_witness :
  let cs101 := Course.init "CS101" "Intro" "" 3 "Ada" 30 None "t0" in
  let cs201 := Course.init "CS201" "Data" "" 3 "Bob" 30 None "t0" in
  let self := foldl run_catalog_call []
                [CallAddCourse cs101; CallAddCourse cs201] in
  Course.course_id cs201 ≠ "CS101"
  ∧ cs201 ∈ CourseManager.get_active_courses self.
Proof.
  intros cs101 cs201 self.
  apply (X12_deleted_course_not_active "CS101" "t1" self cs201).
  - apply (catalog_keyed [CallAddCourse cs101; CallAddCourse cs201]).
  - vm_compute. left.
Defined.

(** X13. [find_courses_by_credits] lists, in the manager's order, exactly
    the courses whose credits lie between the two bounds, both included; no
    upper bound means none is applied, and an upper bound below the lower
    one gives the empty list. *)
Theorem X13_find_courses_by_credits (min_credits : Z)
    (max_credits : option Z) (self : CourseManager.t) :
  (∀ c, c ∈ CourseManager.find_courses_by_credits min_credits max_credits self
        ↔ c ∈ CourseManager.get_all_courses self
          ∧ min_credits ≤ Course.credits c
          ∧ ∀ m, max_credits = Some m → Course.credits c ≤ m)
  ∧ CourseManager.find_courses_by_credits min_credits max_credits self
    `sublist_of` CourseManager.get_all_courses self
  ∧ (∀ m, max_credits = Some m → m < min_credits →
          CourseManager.find_courses_by_credits min_credits max_credits self
          = []).
Proof.
  unfold CourseManager.find_courses_by_credits, CourseManager.get_all_courses.
  assert (∀ c : Course.t,
            Is_true ((min_credits <=? Course.credits c)
                     && match max_credits with
                        | Some m => Course.credits c <=? m
                        | None => true
                        end)
            ↔ min_credits ≤ Course.credits c
              ∧ ∀ m, max_credits = Some m → Course.credits c ≤ m) as Hin.
  { intros c. rewrite andb_True, !Is_true_true, Z.leb_le.
    destruct max_credits as [m|].
    - rewrite Z.leb_le. split.
      + intros [? ?]. split; [assumption|]. intros ? [= <-]. assumption.
      + intros [? Hm]. split; [assumption|]. apply Hm. reflexivity.
    - split; [|tauto]. intros [? _]. split; [assumption|]. discriminate. }
  split; [|split].
  - intros c. rewrite list_elem_of_filter, Hin. tauto.
  - apply sublist_filter.
  - intros m Hm Hlt.
    destruct (filter _ (Dict.values self)) as [|c l] eqn:Hf; [reflexivity|].
    assert (c ∈ c :: l) as Hc by left. rewrite <- Hf in Hc.
    apply list_elem_of_filter in Hc as [Hc _]. apply Hin in Hc as [? Hmax].
    specialize (Hmax m Hm). lia.
Qed.

Lemma X13_find_courses_by_credits_witness :
  let cs101 := Course.init "CS101" "Intro" "" 3 "Ada" 30 None "t0" in
  let ma101 := Course.init "MATH101" "Calculus" "" 4 "Bob" 30 None "t0" in
  let self := foldl run_catalog_call []
                [CallAddCourse cs101; CallAddCourse ma101] in
  CourseManager.find_courses_by_credits 4 (Some 3) self = [].
Proof.
  intros cs101 ma101 self.
  destruct (X13_find_courses_by_credits 4 (Some 3) self) as (_ & _ & Hnone).
  apply (Hnone 3); [reflexivity|lia].
Defined.

Lemma lower_char_idem (c : ascii) :
  PyStr.lower_char (PyStr.lower_char c) = PyStr.lower_char c.
Proof.
  destruct c as [[] [] [] [] [] [] [] []]; vm_compute; reflexivity.
Qed.

Lemma lower_idem (s : string) : PyStr.lower (PyStr.lower s) = PyStr.lower s.
Proof.
  induction s as [|c s IH]; [reflexivity|].
  cbn [PyStr.lower]. rewrite lower_char_idem, IH. reflexivity.
Qed.

(** X14. [find_courses_by_instructor] ignores case: the name and its
    lower-case form find the same courses, two names that differ only in
    case find the same courses, and every course is found under the name
    of its own instructor. *)
Theorem X14_find_courses_by_instructor (instructor : string)
    (self : CourseManager.t) :
  CourseManager.find_courses_by_instructor (PyStr.lower instructor) self
  = CourseManager.find_courses_by_instructor instructor self
  ∧ (∀ other,
       PyStr.lower other = PyStr.lower instructor →
       CourseManager.find_courses_by_instructor other self
       = CourseManager.find_courses_by_instructor instructor self)
  ∧ (∀ c, c ∈ CourseManager.get_all_courses self →
          c ∈ CourseManager.find_courses_by_instructor
                (Course.instructor c) self).
Proof.
  unfold CourseManager.find_courses_by_instructor,
    CourseManager.get_all_courses.
  split; [|split].
  - apply list_filter_iff. intros c. rewrite lower_idem. reflexivity.
  - intros other Hother. apply list_filter_iff. intros c.
    rewrite Hother. reflexivity.
  - intros c Hc. apply list_elem_of_filter. split; [reflexivity|exact Hc].
Qed.

Lemma X14_find_courses_by_instructor_witness :
  let cs101 := Course.init "CS101" "Intro" "" 3 "Dr. Ada" 30 None "t0" in
  let self := foldl run_catalog_call [] [CallAddCourse cs101] in
  CourseManager.find_courses_by_instructor "DR. ADA" self
  = CourseManager.find_courses_by_instructor "dr. ada" self.
Proof.
  intros cs101 self.
  apply (X14_find_courses_by_instructor "dr. ada" self).
  vm_compute. reflexivity.
Defined.

Lemma conflicts_after_elem (c1 : Course.t) (rest : list Course.t) :
  ∀ found, CourseManager.conflicts_after c1 rest = Ok found →
  ∀ x, x ∈ found
       ↔ ∃ j c2, rest !! j = Some c2
                 ∧ Course.conflicts_with c1 c2 = Ok true
                 ∧ x = CourseManager.mk_conflict
                         (Course.course_id c1) (Course.course_id c2)
                         "schedule".
Proof.
  induction rest as [|c2 rest IH]; intros found Hrun x.
  - injection Hrun as <-. split; [intros H; inversion H|].
    intros (j & c & Hj & _). discriminate Hj.
  - cbn [CourseManager.conflicts_after] in Hrun.
    destruct (Course.conflicts_with c1 c2) as [b| |] eqn:Hb;
      cbn [mbind res_bind] in Hrun; [|discriminate..].
    destruct (CourseManager.conflicts_after c1 rest) as [f| |];
      cbn [mbind res_bind mret res_ret] in Hrun; [|discriminate..].
    injection Hrun as <-. specialize (IH f eq_refl x).
    split.
    + intros Hx. destruct b.
      * apply elem_of_cons in Hx as [->|Hx].
        -- exists 0%nat, c2. auto.
        -- apply IH in Hx as (j & c & Hj & Hc & ->).
           exists (S j), c. auto.
      * apply IH in Hx as (j & c & Hj & Hc & ->). exists (S j), c. auto.
    + intros ([|j] & c & Hj & Hc & ->).
      * injection Hj as <-. rewrite Hb in Hc. injection Hc as ->. left.
      * assert (CourseManager.mk_conflict (Course.course_id c1)
                  (Course.course_id c) "schedule" ∈ f) as Hf
          by (apply IH; exists j, c; auto).
        destruct b; [right|]; exact Hf.
Qed.

Lemma conflicts_among_elem (objs : list Course.t) :
  ∀ found, CourseManager.conflicts_among objs = Ok found →
  ∀ x, x ∈ found
       ↔ ∃ i j c1 c2, (i < j)%nat
                      ∧ objs !! i = Some c1 ∧ objs !! j = Some c2
                      ∧ Course.conflicts_with c1 c2 = Ok true
                      ∧ x = CourseManager.mk_conflict
                              (Course.course_id c1) (Course.course_id c2)
                              "schedule".
Proof.
  induction objs as [|c objs IH]; intros found Hrun x.
  - injection Hrun as <-. split; [intros H; inversion H|].
    intros (i & j & c1 & c2 & _ & Hi & _). discriminate Hi.
  - cbn [CourseManager.conflicts_among] in Hrun.
    destruct (CourseManager.conflicts_after c objs) as [here| |] eqn:Hhere;
      cbn [mbind res_bind] in Hrun; [|discriminate..].
    destruct (CourseManager.conflicts_among objs) as [later| |];
      cbn [mbind res_bind mret res_ret] in Hrun; [|discriminate..].
    injection Hrun as <-. specialize (IH later eq_refl x).
    pose proof (conflicts_after_elem c objs here Hhere x) as Hafter.
    rewrite elem_of_app. split.
    + intros [Hx|Hx].
      * apply Hafter in Hx as (j & c2 & Hj & Hc & ->).
        exists 0%nat, (S j), c, c2. repeat split; auto. lia.
      * apply IH in Hx as (i & j & c1 & c2 & Hlt & Hi & Hj & Hc & ->).
        exists (S i), (S j), c1, c2. repeat split; auto. lia.
    + intros (i & j & c1 & c2 & Hlt & Hi & Hj & Hc & ->).
      destruct j as [|j]; [lia|]. destruct i as [|i].
      * injection Hi as <-. left. apply Hafter. exists j, c2. auto.
      * right. apply IH. exists i, j, c1, c2. repeat split; auto. lia.
Qed.

(** X15. When [get_courses_with_conflicts] answers, its list holds exactly
    one entry, of type ['schedule'], for each two positions [i < j] of the
    courses the ids resolve to whose courses conflict; ids that resolve to
    no course are skipped. *)
Theorem X15_get_courses_with_conflicts (student_courses : list string)
    (self : CourseManager.t) :
  (∀ found,
     CourseManager.get_courses_with_conflicts student_courses self
     = Ok found →
     let objs :=
       omap (λ cid, CourseManager.get_course cid self) student_courses in
     ∀ x, x ∈ found
          ↔ ∃ i j c1 c2, (i < j)%nat
                         ∧ objs !! i = Some c1 ∧ objs !! j = Some c2
                         ∧ Course.conflicts_with c1 c2 = Ok true
                         ∧ x = CourseManager.mk_conflict
                                 (Course.course_id c1) (Course.course_id c2)
                                 "schedule")
  ∧ CourseManager.get_courses_with_conflicts
      (filter (λ cid, is_Some (CourseManager.get_course cid self))
              student_courses) self
    = CourseManager.get_courses_with_conflicts student_courses self.
Proof.
  unfold CourseManager.get_courses_with_conflicts. split.
  - intros found Hrun objs. apply conflicts_among_elem. exact Hrun.
  - f_equal. induction student_courses as [|cid ids IH]; [reflexivity|].
    destruct (CourseManager.get_course cid self) as [c|] eqn:Hc.
    + rewrite filter_cons_True by (rewrite Hc; eauto).
      cbn [omap list_omap]. rewrite Hc, IH. reflexivity.
    + rewrite filter_cons_False by (rewrite Hc; intros [? [=]]).
      cbn [omap list_omap]. rewrite Hc. exact IH.
Qed.

Lemma X15_get_courses_with_conflicts_witness :
  let course cid time :=
    Course.set_schedule ["Monday"] time "R1" "t1"
      (Course.init cid "Course" "" 3 "Ada" 30 None "t0") in
  let self := foldl run_catalog_call []
                [CallAddCourse (course "A" "10:00-11:30");
                 CallAddCourse (course "B" "11:00-12:00")] in
  CourseManager.get_courses_with_conflicts ["A"; "ghost"; "B"] self
  = Ok [CourseManager.mk_conflict "A" "B" "schedule"]
  ∧ CourseManager.mk_conflict "A" "B" "schedule"
    ∈ [CourseManager.mk_conflict "A" "B" "schedule"].
Proof.
  intros course self. split; [vm_compute; reflexivity|].
  destruct (X15_get_courses_with_conflicts ["A"; "ghost"; "B"] self)
    as [Hlist _].
  apply (Hlist [CourseManager.mk_conflict "A" "B" "schedule"]).
  - vm_compute. reflexivity.
  - exists 0%nat, 1%nat, (course "A" "10:00-11:30"),
      (course "B" "11:00-12:00").
    split; [lia|]. repeat split; vm_compute; reflexivity.
Defined.

End CourseRegistry.

(** * Further properties of [Registration] *)

Section RegistrationFurther.

(** X16. A registration with a non-empty id, written by [to_dict], is read
    back unchanged by [Registration.from_dict]. *)
Theorem X16_registration_from_dict_to_dict (uuid now_init now_dflt : string)
    (r : Registration.t) :
  Registration.registration_id r ≠ "" →
  Registration.from_dict uuid now_init now_dflt (Registration.to_dict r)
  = Ok r.
Proof.
  destruct r as [rid sid cid st ed dd gr nt]. cbn [Registration.registration_id].
  intros Hrid.
  unfold Registration.from_dict, Registration.to_dict, getitem, Py.item,
    Py.get_none, Py.get.
  cbn [Registration.registration_id Registration.student_id
       Registration.course_id Registration.status Registration.enrollment_date
       Registration.drop_date Registration.grade Registration.notes].
  simplify_map_eq.
  destruct rid as [|c rid]; [congruence|].
  destruct st, dd, gr; reflexivity.
Qed.

Lemma X16_registration_from_dict_to_dict_witness :
  let r := (Registration.drop_course "t1"
              (Registration.init "s1" "CS101" None "r1" "t0")).2 in
  Registration.from_dict "u" "t2" "t3" (Registration.to_dict r) = Ok r.
Proof.
  intros r. apply X16_registration_from_dict_to_dict. discriminate.
Defined.

(** X17. [Registration.from_dict] raises [KeyError] on a record without
    [student_id] or without [course_id], raises [ValueError] when the
    record's [status] is not the value of a status, and reads a record
    without [status] as ENROLLED. *)
Theorem X17_registration_from_dict_errors (uuid now_init now_dflt : string) :
  (∀ data k,
     k ∈ ["student_id"; "course_id"] → data !! k = None →
     Registration.from_dict uuid now_init now_dflt data = Raise KeyError)
  ∧ (∀ r v,
       (∀ st, v ≠ Py.VStr (Registration.status_value st)) →
       Registration.from_dict uuid now_init now_dflt
         (<["status" := v]> (Registration.to_dict r))
       = Raise ValueError)
  ∧ (∀ r,
       Registration.registration_id r ≠ "" →
       Registration.from_dict uuid now_init now_dflt
         (delete "status" (Registration.to_dict r))
       = Ok (Registration.with_status ENROLLED (Registration.drop_date r) r)).
Proof.
  split; [|split].
  - intros data k Hk Hmiss. unfold Registration.from_dict, getitem, Py.item.
    repeat (apply elem_of_cons in Hk as [->|Hk]); [..|inversion Hk].
    + rewrite Hmiss. reflexivity.
    + destruct (data !! "student_id"); [|reflexivity].
      rewrite Hmiss. reflexivity.
  - intros r v Hv.
    assert (Registration.status_of_value v = Raise ValueError) as Hbad.
    { destruct v as [| | |s| |]; try reflexivity.
      unfold Registration.status_of_value.
      destruct (String.eqb_spec s "enrolled") as [->|_];
        [destruct (Hv ENROLLED); reflexivity|].
      destruct (String.eqb_spec s "dropped") as [->|_];
        [destruct (Hv DROPPED); reflexivity|].
      destruct (String.eqb_spec s "waitlisted") as [->|_];
        [destruct (Hv WAITLISTED); reflexivity|].
      destruct (String.eqb_spec s "pending") as [->|_];
        [destruct (Hv PENDING); reflexivity|].
      reflexivity. }
    destruct r as [rid sid cid st ed dd gr nt].
    unfold Registration.from_dict, Registration.to_dict, getitem, Py.item,
      Py.get_none, Py.get.
    simplify_map_eq. rewrite Hbad. reflexivity.
  - intros r Hrid. destruct r as [rid sid cid st ed dd gr nt].
    cbn [Registration.registration_id] in Hrid.
    unfold Registration.from_dict, Registration.to_dict, getitem, Py.item,
      Py.get_none, Py.get, Registration.with_status.
    cbn [Registration.registration_id Registration.student_id
         Registration.course_id Registration.status
         Registration.enrollment_date Registration.drop_date
         Registration.grade Registration.notes].
    simplify_map_eq.
    destruct rid as [|c rid]; [congruence|].
    destruct dd, gr; reflexivity.
Qed.

Lemma X17_registration_from_dict_errors_witness :
  Registration.from_dict "u" "t1" "t2"
    (<["status" := Py.VStr "graduated"]>
       (Registration.to_dict (Registration.init "s1" "CS101" None "r1" "t0")))
  = Raise ValueError.
Proof.
  destruct (X17_registration_from_dict_errors "u" "t1" "t2") as (_ & Hbad & _).
  apply Hbad. intros []; discriminate.
Defined.

Lemma string_app_assoc (a b c : string) :
  ((a ++ b) ++ c = a ++ (b ++ c))%string.
Proof.
  induction a as [|x a IH]; [reflexivity|].
  change (String x ((a ++ b) ++ c) = String x (a ++ (b ++ c)))%string.
  rewrite IH. reflexivity.
Qed.

Lemma add_notes_joined (l : list string) : ∀ r,
  Registration.notes r ≠ "" →
  Registration.notes (foldl (λ r n, Registration.add_note n r) r l)
  = String.concat "; " (Registration.notes r :: l).
Proof.
  induction l as [|n l IH]; intros r Hr; [reflexivity|].
  cbn [foldl]. rewrite IH.
  - unfold Registration.add_note. cbn [Registration.notes].
    destruct (Registration.notes r) as [|c s] eqn:Hn; [congruence|].
    destruct l as [|m l]; [reflexivity|].
    cbn [String.concat]. rewrite !string_app_assoc. reflexivity.
  - unfold Registration.add_note. cbn [Registration.notes].
    destruct (Registration.notes r) as [|c s]; [congruence|]. discriminate.
Qed.

(** X18. Notes are joined by ["; "]: starting without notes, adding a list
    of notes whose first one is not empty leaves them joined by ["; "], in
    the order they were added. *)
Theorem X18_add_note_joins (r : Registration.t) (first : string)
    (others : list string) :
  Registration.notes r = "" →
  first ≠ "" →
  Registration.notes
    (foldl (λ r n, Registration.add_note n r) r (first :: others))
  = String.concat "; " (first :: others).
Proof.
  intros Hr Hfirst. cbn [foldl]. rewrite add_notes_joined.
  - unfold Registration.add_note. rewrite Hr. reflexivity.
  - unfold Registration.add_note. rewrite Hr. exact Hfirst.
Qed.

Lemma X18_add_note_joins_witness :
  Registration.notes
    (foldl (λ r n, Registration.add_note n r)
           (Registration.init "s1" "CS101" None "r1" "t0")
           ["late start"; ""; "advisor approved"])
  = "late start; ; advisor approved".
Proof.
  apply (X18_add_note_joins (Registration.init "s1" "CS101" None "r1" "t0")
           "late start" [""; "advisor approved"]).
  - reflexivity.
  - discriminate.
Defined.

Lemma registration_calls_keep (rid sid cid ed : string)
    (calls : list registration_call) : ∀ r,
  Registration.registration_id r = rid
  ∧ Registration.student_id r = sid
  ∧ Registration.course_id r = cid
  ∧ Registration.enrollment_date r = ed
  ∧ (Registration.status r = ENROLLED ∧ Registration.drop_date r = None
     ∨ Registration.status r = DROPPED
       ∧ ∃ t, Registration.drop_date r = Some t) →
  let r' := foldl run_registration_call r calls in
  Registration.registration_id r' = rid
  ∧ Registration.student_id r' = sid
  ∧ Registration.course_id r' = cid
  ∧ Registration.enrollment_date r' = ed
  ∧ (Registration.status r' = ENROLLED ∧ Registration.drop_date r' = None
     ∨ Registration.status r' = DROPPED
       ∧ ∃ t, Registration.drop_date r' = Some t).
Proof.
  induction calls as [|c calls IH]; intros r Hr; [exact Hr|].
  cbn [foldl]. apply IH. clear IH.
  destruct Hr as (Hid & Hsid & Hcid & Hed & Hst).
  destruct r as [rid' sid' cid' st ed' dd gr nt]. simpl in *.
  destruct c as [t| |g|n]; simpl;
    unfold Registration.drop_course, Registration.re_enroll; simpl.
  - destruct Hst as [[-> ->]|[-> [t' ->]]]; simpl; repeat split; eauto.
  - destruct Hst as [[-> ->]|[-> [t' ->]]]; simpl; repeat split; eauto.
  - repeat split; assumption.
  - repeat split; assumption.
Qed.

(** X19. Whatever sequence of [drop_course], [re_enroll], [set_grade] and
    [add_note] calls is run on a new registration, its id, student, course
    and enrollment date stay as constructed, its status is ENROLLED or
    DROPPED, and [drop_date] is set exactly while the status is DROPPED. *)
Theorem X19_registration_calls (student_id course_id : string)
    (registration_id : option string) (uuid now : string)
    (calls : list registration_call) :
  let r0 := Registration.init student_id course_id registration_id uuid now in
  let r := foldl run_registration_call r0 calls in
  Registration.registration_id r = Registration.registration_id r0
  ∧ Registration.student_id r = student_id
  ∧ Registration.course_id r = course_id
  ∧ Registration.enrollment_date r = now
  ∧ (Registration.status r = ENROLLED ∧ Registration.drop_date r = None
     ∨ Registration.status r = DROPPED
       ∧ ∃ t, Registration.drop_date r = Some t).
Proof.
  intros r0 r. apply registration_calls_keep.
  repeat split. left. split; reflexivity.
Qed.

End RegistrationFurther.

(** * Further properties of [RegistrationManager] *)

Section RegistryFurther.

Lemma first_of_pair_None sid cid (self : RegistrationManager.t) :
  RegistrationManager.get_registration_by_student_and_course sid cid self
  = None
  ↔ (sid, cid) ∉ pair_of <$> Dict.values self.
Proof.
  unfold Dict.values.
  induction self as [|[k r] self IH];
    cbn [RegistrationManager.get_registration_by_student_and_course].
  - split; [intros _ H; inversion H|reflexivity].
  - rewrite !fmap_cons, not_elem_of_cons. cbn [snd]. unfold pair_of at 1.
    destruct (decide (Registration.student_id r = sid)) as [Hs|Hs],
             (decide (Registration.course_id r = cid)) as [Hc|Hc].
    + rewrite !bool_decide_eq_true_2 by assumption. cbn [andb].
      split; [discriminate|]. intros [Hne _]. destruct Hne. congruence.
    + rewrite (bool_decide_eq_false_2 _ Hc), andb_false_r.
      rewrite IH. split; [|tauto]. intros H. split; [congruence|exact H].
    + rewrite (bool_decide_eq_false_2 _ Hs). cbn [andb].
      rewrite IH. split; [|tauto]. intros H. split; [congruence|exact H].
    + rewrite (bool_decide_eq_false_2 _ Hs). cbn [andb].
      rewrite IH. split; [|tauto]. intros H. split; [congruence|exact H].
Qed.

(** X20. [create_registration] decides on the first registration of the
    pair in the dict's order. When that one is ENROLLED it answers [None]
    and changes nothing. Otherwise (no registration of the pair, or the
    first one not ENROLLED) it answers a new ENROLLED registration without
    drop date, grade or notes, stores it under the id drawn, and leaves what
    is stored under every other id as it was. *)
Theorem X20_create_registration (student_id course_id uuid now : string)
    (self : RegistrationManager.t) :
  let first :=
    RegistrationManager.get_registration_by_student_and_course
      student_id course_id self in
  let result :=
    RegistrationManager.create_registration student_id course_id uuid now
      self in
  ((∃ k e, first = Some (k, e) ∧ Registration.status e = ENROLLED) →
   result = (None, self))
  ∧ ((∀ k e, first = Some (k, e) → Registration.status e ≠ ENROLLED) →
     let r := Registration.mk uuid student_id course_id ENROLLED now
                              None None "" in
     result.1 = Some r
     ∧ RegistrationManager.get_registration uuid result.2 = Some r
     ∧ ∀ k, k ≠ uuid →
            RegistrationManager.get_registration k result.2
            = RegistrationManager.get_registration k self).
Proof.
  intros first result. subst first result.
  unfold RegistrationManager.create_registration,
    RegistrationManager.get_registration.
  destruct (RegistrationManager.get_registration_by_student_and_course
              student_id course_id self) as [[k e]|].
  - split.
    + intros (k' & e' & [= <- <-] & Hst). unfold Registration.is_active.
      rewrite bool_decide_eq_true_2 by exact Hst. reflexivity.
    + intros Hst. unfold Registration.is_active.
      rewrite bool_decide_eq_false_2 by (apply (Hst k e); reflexivity).
      cbn [fst snd Registration.init Registration.registration_id].
      repeat split.
      * apply dict_get_set_eq.
      * intros k' Hk'. apply dict_get_set_ne. exact Hk'.
  - split.
    + intros (k' & e' & [=] & _).
    + intros _. cbn [fst snd Registration.init Registration.registration_id].
      repeat split.
      * apply dict_get_set_eq.
      * intros k' Hk'. apply dict_get_set_ne. exact Hk'.
Qed.

Lemma X20_create_registration_witness :
  let self := (RegistrationManager.create_registration
                 "s1" "CS101" "r1" "t0" []).2 in
  RegistrationManager.create_registration "s1" "CS101" "r2" "t1" self
  = (None, self).
Proof.
  intros self.
  apply (X20_create_registration "s1" "CS101" "r2" "t1" self).
  eexists _, _. split; reflexivity.
Defined.

(** X21. [drop_registration] decides on the first registration of the pair
    in the dict's order. When that one is ENROLLED it answers [True], the
    registration becomes DROPPED with the clock read as drop date and is
    otherwise unchanged, no id is added or removed, and what is stored under
    every other id stays as it was. Otherwise it answers [False] and
    changes nothing. *)
Theorem X21_drop_registration (student_id course_id now : string)
    (self : RegistrationManager.t) :
  let first :=
    RegistrationManager.get_registration_by_student_and_course
      student_id course_id self in
  let result :=
    RegistrationManager.drop_registration student_id course_id now self in
  (∀ k e, first = Some (k, e) → Registration.status e = ENROLLED →
     result.1 = true
     ∧ RegistrationManager.get_registration k result.2
       = Some (Registration.mk (Registration.registration_id e)
                 (Registration.student_id e) (Registration.course_id e)
                 DROPPED (Registration.enrollment_date e) (Some now)
                 (Registration.grade e) (Registration.notes e))
     ∧ Dict.keys result.2 = Dict.keys self
     ∧ ∀ k', k' ≠ k →
             RegistrationManager.get_registration k' result.2
             = RegistrationManager.get_registration k' self)
  ∧ ((∀ k e, first = Some (k, e) → Registration.status e ≠ ENROLLED) →
     result = (false, self)).
Proof.
  intros first result. subst first result.
  unfold RegistrationManager.drop_registration,
    RegistrationManager.get_registration.
  destruct (RegistrationManager.get_registration_by_student_and_course
              student_id course_id self) as [[k e]|] eqn:Hfirst.
  - split.
    + intros k' e' [= <- <-] Hst. unfold Registration.is_active,
        Registration.drop_course.
      rewrite bool_decide_eq_true_2, decide_True by exact Hst.
      cbn [fst snd]. repeat split.
      * apply dict_get_set_eq.
      * apply dict_set_keys_present.
        apply first_of_pair_elem in Hfirst.
        destruct (Dict.get k self) eqn:Hget; [eauto|].
        apply dict_get_None in Hget. destruct Hget.
        apply (list_elem_of_fmap_2 fst _ (k, e)). exact Hfirst.
      * intros k' Hk'. apply dict_get_set_ne. exact Hk'.
    + intros Hst. unfold Registration.is_active.
      rewrite bool_decide_eq_false_2 by (apply (Hst k e); reflexivity).
      reflexivity.
  - split; [intros k e [=]|reflexivity].
Qed.

Lemma X21_drop_registration_witness :
  let self := (RegistrationManager.create_registration
                 "s1" "CS101" "r1" "t0" []).2 in
  let result := RegistrationManager.drop_registration "s1" "CS101" "t1" self in
  result.1 = true
  ∧ RegistrationManager.get_registration "r1" result.2
    = Some (Registration.mk "r1" "s1" "CS101" DROPPED "t0" (Some "t1")
                            None "").
Proof.
  intros self result.
  destruct (X21_drop_registration "s1" "CS101" "t1" self) as [Hdrop _].
  destruct (Hdrop "r1" (Registration.init "s1" "CS101" None "r1" "t0"))
    as (Htrue & Hget & _); [reflexivity..|].
  split; [exact Htrue|exact Hget].
Defined.

Lemma dict_set_keys_mono {V} (d : Dict.t V) (k k' : string) (v : V) :
  k ∈ Dict.keys d → k ∈ Dict.keys (Dict.set k' v d).
Proof.
  intros Hk. destruct (Dict.get k' d) eqn:Hget.
  - rewrite dict_set_keys_present by (rewrite Hget; eauto). exact Hk.
  - rewrite (dict_set_new _ _ _ Hget). unfold Dict.keys.
    rewrite fmap_app. apply elem_of_app. left. exact Hk.
Qed.

Lemma run_registry_call_keyed (self : RegistrationManager.t)
    (c : registry_call) :
  well_keyed self → well_keyed (run_registry_call self c).
Proof.
  destruct c; cbn [run_registry_call].
  - apply create_registration_well_keyed.
  - apply drop_registration_well_keyed.
  - apply update_registration_status_well_keyed.
Qed.

Lemma run_registry_call_keys (self : RegistrationManager.t)
    (c : registry_call) (k : string) :
  k ∈ Dict.keys self → k ∈ Dict.keys (run_registry_call self c).
Proof.
  intros Hk. destruct c as [sid cid uuid now|sid cid now|rid st now];
    cbn [run_registry_call].
  - unfold RegistrationManager.create_registration.
    destruct (match _ with Some _ => _ | None => _ end); [exact Hk|].
    apply dict_set_keys_mono, Hk.
  - unfold RegistrationManager.drop_registration.
    destruct (RegistrationManager.get_registration_by_student_and_course
                sid cid self) as [[k' e]|]; [|exact Hk].
    destruct (Registration.is_active e); [|exact Hk].
    destruct (Registration.drop_course now e). apply dict_set_keys_mono, Hk.
  - unfold RegistrationManager.update_registration_status.
    destruct (RegistrationManager.get_registration rid self); [|exact Hk].
    apply dict_set_keys_mono, Hk.
Qed.

Lemma registry_keyed (calls : list registry_call) :
  well_keyed (foldl run_registry_call [] calls).
Proof.
  assert (∀ self, well_keyed self →
                  well_keyed (foldl run_registry_call self calls)) as H.
  { induction calls as [|c calls IH]; intros self Hwk; [exact Hwk|].
    apply IH, run_registry_call_keyed, Hwk. }
  apply H. split; [constructor|]. intros k r Hin. inversion Hin.
Qed.

(** X22. Whatever sequence of [create_registration], [drop_registration]
    and [update_registration_status] calls is run on an empty manager,
    every registration is stored under its own id, no id is stored twice,
    and an id once stored stays stored: these three methods never delete a
    registration. *)
Theorem X22_registry_keeps_ids (calls : list registry_call) :
  well_keyed (foldl run_registry_call [] calls)
  ∧ ∀ (before after : list registry_call) k,
      calls = (before ++ after)%list →
      k ∈ Dict.keys (foldl run_registry_call [] before) →
      k ∈ Dict.keys (foldl run_registry_call [] calls).
Proof.
  split; [apply registry_keyed|].
  intros before after k -> Hk. rewrite foldl_app.
  generalize dependent (foldl run_registry_call [] before).
  induction after as [|c after IH]; intros self Hk; [exact Hk|].
  apply IH, run_registry_call_keys, Hk.
Qed.

Lemma X22_registry_keeps_ids_witness :
  "r1" ∈ Dict.keys (foldl run_registry_call []
                      [CallCreate "s1" "CS101" "r1" "t0";
                       CallDropRegistration "s1" "CS101" "t1";
                       CallUpdateStatus "r1" PENDING "t2"]).
Proof.
  destruct (X22_registry_keeps_ids
              [CallCreate "s1" "CS101" "r1" "t0";
               CallDropRegistration "s1" "CS101" "t1";
               CallUpdateStatus "r1" PENDING "t2"]) as [_ Hkept].
  apply (Hkept [CallCreate "s1" "CS101" "r1" "t0"]
               [CallDropRegistration "s1" "CS101" "t1";
                CallUpdateStatus "r1" PENDING "t2"]).
  - reflexivity.
  - vm_compute. left.
Defined.

Lemma set_pairs_NoDup (k : string) (v : Registration.t)
    (d : RegistrationManager.t) :
  NoDup (pair_of <$> Dict.values d) →
  pair_of v ∉ pair_of <$> Dict.values d →
  NoDup (pair_of <$> Dict.values (Dict.set k v d)).
Proof.
  unfold Dict.values.
  induction d as [|[k' v'] d IH]; cbn [Dict.set]; intros Hnd Hnew.
  - apply NoDup_singleton.
  - rewrite !fmap_cons in Hnd, Hnew. cbn [snd] in Hnd, Hnew.
    apply NoDup_cons in Hnd as [Hv' Hnd].
    apply not_elem_of_cons in Hnew as [Hne Hnew].
    destruct (decide (k = k')) as [->|Hk].
    + rewrite !fmap_cons. cbn [snd]. apply NoDup_cons. split; assumption.
    + rewrite !fmap_cons. cbn [snd]. apply NoDup_cons. split; [|auto].
      intros Hin. apply list_elem_of_fmap in Hin as (r & Hr & Hin).
      apply list_elem_of_fmap in Hin as ([k0 r0] & -> & Hin). cbn [snd] in Hr.
      apply set_elem in Hin as [[= -> ->]|Hin].
      * congruence.
      * apply Hv'. rewrite Hr.
        apply list_elem_of_fmap_2, (list_elem_of_fmap_2 snd _ (k0, r0)).
        exact Hin.
Qed.

Lemma create_only_step (self : RegistrationManager.t) (c : registry_call) :
  is_create c = true →
  NoDup (pair_of <$> Dict.values self)
  ∧ (∀ r, r ∈ Dict.values self → Registration.status r = ENROLLED) →
  NoDup (pair_of <$> Dict.values (run_registry_call self c))
  ∧ (∀ r, r ∈ Dict.values (run_registry_call self c) →
          Registration.status r = ENROLLED).
Proof.
  destruct c as [sid cid uuid now| |]; [intros _|discriminate..].
  intros [Hnd Hall]. cbn [run_registry_call].
  unfold RegistrationManager.create_registration.
  destruct (RegistrationManager.get_registration_by_student_and_course
              sid cid self) as [[k e]|] eqn:Hfirst.
  - apply first_of_pair_elem in Hfirst.
    assert (Registration.status e = ENROLLED) as He
      by (apply Hall, (list_elem_of_fmap_2 snd _ (k, e)), Hfirst).
    unfold Registration.is_active.
    rewrite bool_decide_eq_true_2 by exact He. split; assumption.
  - cbn [snd]. split.
    + apply set_pairs_NoDup; [exact Hnd|].
      apply first_of_pair_None in Hfirst. exact Hfirst.
    + intros r Hr. unfold Dict.values in Hr.
      apply list_elem_of_fmap in Hr as ([k0 r0] & -> & Hin). cbn [snd].
      apply set_elem in Hin as [[= -> ->]|Hin]; [reflexivity|].
      apply Hall, (list_elem_of_fmap_2 snd _ (k0, r0)), Hin.
Qed.

(** X23. As long as only [create_registration] is called, the duplicate
    guard holds: whatever such calls are run on an empty manager, no two
    stored registrations relate the same student and course, and all of
    them are ENROLLED. *)
Theorem X23_create_only_one_per_pair (calls : list registry_call) :
  forallb is_create calls = true →
  let self := foldl run_registry_call [] calls in
  NoDup (pair_of <$> Dict.values self)
  ∧ ∀ r, r ∈ Dict.values self → Registration.status r = ENROLLED.
Proof.
  intros Hcreate self. subst self.
  assert (∀ self,
            NoDup (pair_of <$> Dict.values self)
            ∧ (∀ r, r ∈ Dict.values self → Registration.status r = ENROLLED) →
            NoDup (pair_of <$> Dict.values (foldl run_registry_call self calls))
            ∧ (∀ r, r ∈ Dict.values (foldl run_registry_call self calls) →
                    Registration.status r = ENROLLED)) as H.
  { induction calls as [|c calls IH]; intros self Hinv; [exact Hinv|].
    cbn [forallb] in Hcreate. apply andb_true_iff in Hcreate as [Hc Hcs].
    cbn [foldl]. apply (IH Hcs). apply create_only_step; assumption. }
  apply H. split; [constructor|]. intros r Hr. inversion Hr.
Qed.

Lemma X23_create_only_one_per_pair_witness :
  let self := foldl run_registry_call []
                [CallCreate "s1" "CS101" "r1" "t0";
                 CallCreate "s1" "CS101" "r2" "t1";
                 CallCreate "s2" "CS101" "r3" "t2"] in
  NoDup (pair_of <$> Dict.values self)
  ∧ ∀ r, r ∈ Dict.values self → Registration.status r = ENROLLED.
Proof.
  apply (X23_create_only_one_per_pair
           [CallCreate "s1" "CS101" "r1" "t0";
            CallCreate "s1" "CS101" "r2" "t1";
            CallCreate "s2" "CS101" "r3" "t2"]).
  reflexivity.
Defined.

End RegistryFurther.

Section RegistryFigures.

Variable F : Type.
Variable percent : Z → Z → F.

Lemma filter_lengths_disjoint {A} (P Q : A → Prop) `{∀ x, Decision (P x)}
    `{∀ x, Decision (Q x)} (l : list A) :
  (∀ x, P x → Q x → False) →
  (length (filter P l) + length (filter Q l) ≤ length l)%nat.
Proof.
  intros Hdisj. induction l as [|x l IH]; [reflexivity|].
  destruct (decide (P x)) as [HP|HP], (decide (Q x)) as [HQ|HQ].
  - destruct (Hdisj x HP HQ).
  - rewrite (filter_cons_True P), (filter_cons_False Q) by assumption.
    simpl. lia.
  - rewrite (filter_cons_False P), (filter_cons_True Q) by assumption.
    simpl. lia.
  - rewrite (filter_cons_False P), (filter_cons_False Q) by assumption.
    simpl. lia.
Qed.

Lemma filter_lengths_cover {A} (P Q : A → Prop) `{∀ x, Decision (P x)}
    `{∀ x, Decision (Q x)} (l : list A) :
  (∀ x, P x → Q x → False) → (∀ x, x ∈ l → P x ∨ Q x) →
  (length (filter P l) + length (filter Q l) = length l)%nat.
Proof.
  intros Hdisj. induction l as [|x l IH]; intros Hcover; [reflexivity|].
  assert (length (filter P l) + length (filter Q l) = length l)%nat as Hl
    by (apply IH; intros y Hy; apply Hcover; right; exact Hy).
  destruct (decide (P x)) as [HP|HP], (decide (Q x)) as [HQ|HQ].
  - destruct (Hdisj x HP HQ).
  - rewrite (filter_cons_True P), (filter_cons_False Q) by assumption.
    simpl. lia.
  - rewrite (filter_cons_False P), (filter_cons_True Q) by assumption.
    simpl. lia.
  - destruct (Hcover x) as [?|?]; [left|contradiction..].
Qed.

Lemma active_dropped_disjoint (r : Registration.t) :
  Registration.is_active r → Registration.is_dropped r → False.
Proof.
  unfold Registration.is_active, Registration.is_dropped.
  rewrite !bool_decide_spec. congruence.
Qed.

(** X24. In the figures of [get_registration_statistics] the total is the
    number of stored registrations, the active and dropped counts together
    never exceed it and add up to it when every registration is ENROLLED or
    DROPPED; the enrollment rate is the integer 0 for an empty registry,
    where nothing is divided, and the float [active / total * 100]
    otherwise. *)
Theorem X24_registration_statistics (self : RegistrationManager.t) :
  let st := RegistrationManager.get_registration_statistics F percent self in
  let total := RegistrationManager.total_registrations F st in
  let active := RegistrationManager.active_registrations F st in
  let dropped := RegistrationManager.dropped_registrations F st in
  total = Z.of_nat (length self)
  ∧ 0 ≤ active ∧ 0 ≤ dropped ∧ active + dropped ≤ total
  ∧ ((∀ r, r ∈ Dict.values self →
           Registration.status r = ENROLLED
           ∨ Registration.status r = DROPPED) →
     active + dropped = total)
  ∧ (self = [] →
     RegistrationManager.enrollment_rate F st = RegistrationManager.RInt F 0)
  ∧ (self ≠ [] →
     RegistrationManager.enrollment_rate F st
     = RegistrationManager.RFloat F (percent active total)).
Proof.
  cbn zeta. unfold RegistrationManager.get_registration_statistics.
  cbn [RegistrationManager.total_registrations
       RegistrationManager.active_registrations
       RegistrationManager.dropped_registrations
       RegistrationManager.enrollment_rate].
  pose proof (filter_lengths_disjoint
                (λ r, Is_true (Registration.is_active r))
                (λ r, Is_true (Registration.is_dropped r))
                (Dict.values self) active_dropped_disjoint) as Hle.
  assert (length (Dict.values self) = length self) as Hlen
    by (unfold Dict.values; apply length_fmap).
  rewrite Hlen in Hle.
  split; [reflexivity|]. split; [lia|]. split; [lia|]. split; [lia|].
  split; [|split].
  - intros Hall.
    pose proof (filter_lengths_cover
                  (λ r, Is_true (Registration.is_active r))
                  (λ r, Is_true (Registration.is_dropped r))
                  (Dict.values self) active_dropped_disjoint) as Heq.
    rewrite Hlen in Heq. rewrite <- Heq; [lia|].
    intros r Hr. unfold Registration.is_active, Registration.is_dropped.
    rewrite !bool_decide_spec. apply Hall, Hr.
  - intros ->. reflexivity.
  - intros Hne. destruct self as [|e self]; [congruence|]. reflexivity.
Qed.

(** X25. In the figures of [get_course_enrollment_summary] the total is the
    number of registrations of the course, the active and dropped counts
    together never exceed it, and for a course without registrations every
    count is 0 and the retention rate is the integer 0, nothing being
    divided. *)
Theorem X25_course_enrollment_summary (course_id : string)
    (self : RegistrationManager.t) :
  let sm :=
    RegistrationManager.get_course_enrollment_summary F percent course_id
      self in
  let total := RegistrationManager.total_enrollments F sm in
  let active := RegistrationManager.active_enrollments F sm in
  let dropped := RegistrationManager.dropped_enrollments F sm in
  total
  = Z.of_nat (length (RegistrationManager.get_course_registrations
                        course_id self))
  ∧ 0 ≤ active ∧ 0 ≤ dropped ∧ active + dropped ≤ total
  ∧ ((∀ r, r ∈ Dict.values self → Registration.course_id r ≠ course_id) →
     sm = RegistrationManager.mk_summary F course_id 0 0 0
            (RegistrationManager.RInt F 0))
  ∧ (0 < total →
     RegistrationManager.retention_rate F sm
     = RegistrationManager.RFloat F (percent active total)).
Proof.
  cbn zeta. unfold RegistrationManager.get_course_enrollment_summary.
  cbn [RegistrationManager.total_enrollments
       RegistrationManager.active_enrollments
       RegistrationManager.dropped_enrollments
       RegistrationManager.retention_rate].
  pose proof (filter_lengths_disjoint
                (λ r, Is_true (Registration.is_active r))
                (λ r, Is_true (Registration.is_dropped r))
                (RegistrationManager.get_course_registrations course_id self)
                active_dropped_disjoint) as Hle.
  split; [reflexivity|]. split; [lia|]. split; [lia|]. split; [lia|].
  split.
  - intros Hnone.
    assert (RegistrationManager.get_course_registrations course_id self = [])
      as ->; [|reflexivity].
    unfold RegistrationManager.get_course_registrations.
    destruct (filter _ (Dict.values self)) as [|r l] eqn:Hf; [reflexivity|].
    assert (r ∈ r :: l) as Hr by left. rewrite <- Hf in Hr.
    apply list_elem_of_filter in Hr as [Hc Hr]. destruct (Hnone r Hr Hc).
  - destruct (RegistrationManager.get_course_registrations course_id self);
      [simpl; lia|reflexivity].
Qed.

End RegistryFigures.

Lemma X24_registration_statistics_witness :
  let self := foldl run_registry_call []
                [CallCreate "s1" "CS101" "r1" "t0";
                 CallCreate "s2" "CS101" "r2" "t1";
                 CallDropRegistration "s1" "CS101" "t2"] in
  let st := RegistrationManager.get_registration_statistics (Z * Z) pair self in
  RegistrationManager.total_registrations (Z * Z) st = 2
  ∧ RegistrationManager.enrollment_rate (Z * Z) st
    = RegistrationManager.RFloat (Z * Z) (1, 2).
Proof.
  intros self st.
  destruct (X24_registration_statistics (Z * Z) pair self)
    as (Htotal & _ & _ & _ & _ & _ & Hrate).
  split; [exact Htotal|]. apply Hrate. discriminate.
Defined.

Lemma X25_course_enrollment_summary_witness :
  let self := foldl run_registry_call []
                [CallCreate "s1" "CS101" "r1" "t0"] in
  RegistrationManager.get_course_enrollment_summary (Z * Z) pair "MATH101"
      self
  = RegistrationManager.mk_summary (Z * Z) "MATH101" 0 0 0
      (RegistrationManager.RInt (Z * Z) 0).
Proof.
  intros self.
  apply (X25_course_enrollment_summary (Z * Z) pair "MATH101" self).
  intros r Hr. apply list_elem_of_singleton in Hr. subst r. discriminate.
Defined.

Section CleanupFurther.

Variable fromisoformat : string → res Z.
Hypothesis fromisoformat_empty : fromisoformat "" = Raise ValueError.

Lemma collect_fails (cutoff : Z) (regs : list Registration.t)
    (r : Registration.t) :
  r ∈ regs →
  (∀ b, RegistrationManager.to_remove fromisoformat cutoff r ≠ Ok b) →
  ∀ ids, RegistrationManager.collect fromisoformat cutoff regs ≠ Ok ids.
Proof.
  induction regs as [|r' regs IH]; intros Hin Hbad ids; [inversion Hin|].
  cbn [RegistrationManager.collect].
  apply elem_of_cons in Hin as [<-|Hin].
  - destruct (RegistrationManager.to_remove fromisoformat cutoff r)
      as [b| |] eqn:Hb; [destruct (Hbad b); reflexivity|discriminate..].
  - destruct (RegistrationManager.to_remove fromisoformat cutoff r')
      as [b| |]; cbn [mbind res_bind]; [|discriminate..].
    destruct (RegistrationManager.collect fromisoformat cutoff regs)
      as [ids'| |] eqn:Hc; cbn [mbind res_bind]; [|discriminate..].
    destruct (IH Hin Hbad ids'). reflexivity.
Qed.

(** X26. [cleanup_old_registrations] does not complete when a stored DROPPED
    registration carries a non-empty [drop_date] that [fromisoformat]
    rejects: the exception leaves the first loop, before anything is
    removed. *)
Theorem X26_cleanup_unparseable_date (days_old now : Z)
    (self : RegistrationManager.t) (k : string) (r : Registration.t)
    (d : string) :
  (k, r) ∈ self →
  Registration.status r = DROPPED →
  Registration.drop_date r = Some d →
  d ≠ "" →
  (∀ t, fromisoformat d ≠ Ok t) →
  (∀ out,
     RegistrationManager.cleanup_old_registrations fromisoformat days_old now
       self ≠ Ok out)
  ∧ ∀ ids,
      RegistrationManager.collect fromisoformat
        (now - days_old * RegistrationManager.day) (Dict.values self)
      ≠ Ok ids.
Proof.
  intros Hin Hst Hdd Hne Hbad.
  assert (∀ ids,
            RegistrationManager.collect fromisoformat
              (now - days_old * RegistrationManager.day) (Dict.values self)
            ≠ Ok ids) as Hcollect.
  { apply (collect_fails _ _ r).
    - apply (list_elem_of_fmap_2 snd _ (k, r)). exact Hin.
    - intros b. unfold RegistrationManager.to_remove,
        Registration.is_dropped.
      rewrite bool_decide_eq_true_2 by exact Hst. rewrite Hdd.
      destruct d as [|c d]; [congruence|].
      destruct (fromisoformat (String c d)) as [t| |] eqn:Ht;
        [destruct (Hbad t); reflexivity|discriminate..]. }
  split; [|exact Hcollect].
  intros out. unfold RegistrationManager.cleanup_old_registrations,
    RegistrationManager.timedelta_days, RegistrationManager.datetime_sub.
  destruct (Z.abs days_old <=? 999999999); [|discriminate].
  cbn [mbind res_bind].
  destruct (_ && _); [|discriminate]. cbn [mbind res_bind].
  destruct (RegistrationManager.collect fromisoformat _ (Dict.values self))
    as [ids| |] eqn:Hc; [destruct (Hcollect ids); reflexivity|discriminate..].
Qed.

(** X27. On a well-formed registry, and for a [days_old] whose cutoff is a
    [datetime], a cleanup leaves nothing for a second one: run again with
    the same age and clock on the registry the first run leaves,
    [cleanup_old_registrations] removes nothing and answers 0. The registry
    a cleanup leaves is again well-formed. *)
Theorem X27_cleanup_twice (days_old now : Z) (self : RegistrationManager.t) :
  well_keyed self → dated fromisoformat self →
  RegistrationManager.is_datetime now →
  RegistrationManager.is_datetime (now - days_old * RegistrationManager.day) →
  ∃ n self',
    RegistrationManager.cleanup_old_registrations fromisoformat days_old now
      self = Ok (n, self')
    ∧ well_keyed self'
    ∧ dated fromisoformat self'
    ∧ RegistrationManager.cleanup_old_registrations fromisoformat days_old
        now self' = Ok (0, self').
Proof.
  intros Hwk Hdated Hnow Hcutoff.
  pose proof (cleanup_as_filter fromisoformat fromisoformat_empty days_old now
                self Hwk Hdated Hnow Hcutoff) as Hfirst.
  set (cutoff := now - days_old * RegistrationManager.day) in *.
  set (self' := filter (λ e, ¬ stale fromisoformat cutoff e.2) self) in *.
  assert (well_keyed self') as Hwk'.
  { destruct Hwk as [Hnd Hkeyed]. split.
    - apply keys_filter_NoDup. exact Hnd.
    - intros k r Hin. apply list_elem_of_filter in Hin as [_ Hin].
      apply Hkeyed. exact Hin. }
  assert (dated fromisoformat self') as Hdated'.
  { intros k r d Hin. apply list_elem_of_filter in Hin as [_ Hin].
    apply (Hdated k r d). exact Hin. }
  eexists _, self'. split; [exact Hfirst|].
  split; [exact Hwk'|]. split; [exact Hdated'|].
  rewrite (cleanup_as_filter fromisoformat fromisoformat_empty days_old now
             self' Hwk' Hdated' Hnow Hcutoff).
  fold cutoff.
  assert (filter (λ e, ¬ stale fromisoformat cutoff e.2) self' = self') as ->.
  { apply filter_all. intros e He.
    apply list_elem_of_filter in He as [He _]. exact He. }
  assert (filter (λ e : string * Registration.t,
                    stale fromisoformat cutoff e.2) self' = []) as ->.
  { destruct (filter _ self') as [|e l] eqn:Hf; [reflexivity|].
    assert (e ∈ e :: l) as He by left. rewrite <- Hf in He.
    apply list_elem_of_filter in He as [Hstale He].
    apply list_elem_of_filter in He as [Hfresh _].
    destruct (Hfresh Hstale). }
  reflexivity.
Qed.

End CleanupFurther.

Lemma X26_cleanup_unparseable_date_witness :
  let r := Registration.mk "r1" "s1" "CS101" DROPPED "2024-04-20T09:00:00"
                           (Some "last spring") None "" in
  (∀ out,
     RegistrationManager.cleanup_old_registrations Iso.fromisoformat 365
       1748736000000000 [("r1", r)] ≠ Ok out)
  ∧ ∀ ids,
      RegistrationManager.collect Iso.fromisoformat
        (1748736000000000 - 365 * RegistrationManager.day)
        (Dict.values [("r1", r)])
      ≠ Ok ids.
Proof.
  intros r.
  apply (X26_cleanup_unparseable_date Iso.fromisoformat 365 1748736000000000
           [("r1", r)] "r1" r "last spring").
  - left.
  - reflexivity.
  - reflexivity.
  - discriminate.
  - intros t. vm_compute. discriminate.
Defined.

Lemma X27_cleanup_twice_witness :
  let kept :=
    Registration.mk "r1" "s1" "CS101" ENROLLED "2024-04-20T09:00:00"
                    None None "" in
  let old :=
    Registration.mk "r2" "s2" "CS101" DROPPED "2024-04-20T09:00:00"
                    (Some "2024-04-27T09:00:00") None "" in
  ∃ n self',
    RegistrationManager.cleanup_old_registrations Iso.fromisoformat 365
      1748736000000000 [("r1", kept); ("r2", old)] = Ok (n, self')
    ∧ well_keyed self'
    ∧ dated Iso.fromisoformat self'
    ∧ RegistrationManager.cleanup_old_registrations Iso.fromisoformat 365
        1748736000000000 self' = Ok (0, self').
Proof.
  intros kept old.
  apply (X27_cleanup_twice Iso.fromisoformat eq_refl 365 1748736000000000
           [("r1", kept); ("r2", old)]);
    [| |unfold RegistrationManager.is_datetime,
          RegistrationManager.datetime_min, RegistrationManager.datetime_max,
          RegistrationManager.day; lia..].
  - split.
    + unfold Dict.keys. simpl. repeat (apply NoDup_cons; split);
        [| |apply NoDup_nil; exact I];
        rewrite ?not_elem_of_cons; repeat split; try discriminate;
        apply not_elem_of_nil.
    + intros k r Hin.
      repeat (apply elem_of_cons in Hin as [Hin|Hin]);
        [injection Hin as -> ->; reflexivity..|inversion Hin].
  - intros k r d Hin Hst Hdd _.
    repeat (apply elem_of_cons in Hin as [Hin|Hin]);
      [injection Hin as -> ->..|inversion Hin].
    + discriminate Hst.
    + injection Hdd as <-. eexists. vm_compute. reflexivity.
Defined.

Section StatusUpdate.



End StatusUpdate.
